(** * A shallow embedding of [app.py]

    The application is a Flask program with two SQLAlchemy models ([User],
    [Project]) and eight routes.  The development below embeds the models,
    the store they are declared over, the Flask-Login gate and every view
    function, and proves the properties of the specification about them.

    Conventions.
    - A Python [str] is a [string] holding its UTF-8 encoding: a
      character below 128 is one [ascii], any other character is a lead
      byte followed by continuation bytes.
    - The process state a view function can touch is a [World]: the
      database, the unit of work of [db.session], the signed session cookie
      ([_user_id] and the flashed messages) and a log of the [SELECT]
      statements issued while the request is served.
    - A view function is a computation in the monad [M]: it reads and
      writes the [World] and either returns a value or raises a Python
      exception that nothing in [app.py] catches.
    - [werkzeug.security], the text-to-integer conversion of the store
      and the table of the decimal digits of Unicode are libraries
      outside the program: they are parameters of the handlers that use
      them. *)

From Stdlib Require Import ZArith List Bool Ascii String Lia.
From Stdlib Require Import Permutation Sorted.
Import ListNotations.

Local Open Scope string_scope.
Local Open Scope Z_scope.

Set Implicit Arguments.

(* ------------------------------------------------------------------ *)
(** ** 2. Models *)

(** [datetime.date]. *)
Record date := mkDate { year : Z; month : Z; day : Z }.

(** [class User(UserMixin, db.Model)], table [users]. *)
Record User := mkUser {
  user_id    : Z;               (* id = Column(Integer, primary_key=True) *)
  email      : string;          (* Column(String(100), unique, not null)  *)
  password   : string;          (* Column(String(256), not null)          *)
  name       : string;          (* Column(String(100), not null)          *)
  role       : string;          (* Column(String(20), not null)           *)
  empresa    : option string    (* Column(String(100), nullable)          *)
}.

(** [class Project(db.Model)], table [projects]. *)
Record Project := mkProject {
  project_id : Z;               (* id = Column(Integer, primary_key=True) *)
  pname      : string;          (* name = Column(String(200), not null)   *)
  status     : string;          (* Column(String(50), not null)           *)
  start_date : option date;     (* Column(Date, nullable)                 *)
  client_id  : Z                (* Column(Integer, ForeignKey(users.id))  *)
}.

(** The database: both tables in storage order and the two sequences the
    integer primary keys draw from. *)
Record DB := mkDB {
  users        : list User;
  projects     : list Project;
  users_seq    : Z;
  projects_seq : Z
}.

(** A model object built by a view function before the store has seen it:
    no primary key yet, the password unset until [set_password] runs, and
    [client_id] still the text of the form field. *)
Inductive Pending :=
| NewUser (e : string) (pw : option string) (n r : string) (emp : option string)
| NewProject (n st : string) (d : option date) (cid : string).

(** [flash(message, category)]. *)
Definition Flash := (string * string)%type.

(** The statements a view function sends to the store to read it. *)
Inductive Query :=
| QUserGet (uid : Z)                 (* User.query.get(id)                    *)
| QUserByEmail (e : string)          (* User.query.filter_by(email=e).first() *)
| QUsersByRole (r : string)          (* User.query.filter_by(role=r).all()    *)
| QProjectsByClient (cid : Z)        (* Project.query.filter_by(client_id=c)  *)
| QProjectsByStartDateDesc.          (* Project.query.order_by(start_date.desc()) *)

(** The queries that read project rows or the list of clients. *)
Definition is_data_query (q : Query) : bool :=
  match q with
  | QUsersByRole _ | QProjectsByClient _ | QProjectsByStartDateDesc => true
  | QUserGet _ | QUserByEmail _ => false
  end.

Record World := mkWorld {
  db           : DB;
  pending      : list Pending;      (* db.session: objects added, not flushed *)
  session_user : option Z;          (* session['_user_id']                    *)
  flashes      : list Flash;        (* session['_flashes']                    *)
  trace        : list Query         (* reads issued, oldest first             *)
}.

(** The exceptions the view functions can raise.  [app.py] has no [try]:
    each of them leaves the view function and the framework answers with
    an error status (400 for [BadRequestKeyError], 500 for the others). *)
Inductive Exn :=
| BadRequestKeyError (key : string)  (* request.form[key], key absent        *)
| ValueError                         (* datetime.strptime                    *)
| DataError                          (* store: value does not fit the column *)
| IntegrityError.                    (* store: constraint violated           *)

(** What a view function returns. *)
Inductive Context :=
| NoContext
| DashboardContext (client_name : string) (projs : list Project)
| AdminContext (clients : list User) (all_projects : list Project).

Inductive Response :=
| RenderTemplate (template : string) (ctx : Context)
| Redirect (endpoint : string).      (* redirect(url_for(endpoint)) *)

Inductive Method := GET | POST.

(** [request]: the method, the form as sent (a multi-dict: the first value
    of a key is the one [request.form[key]] reads) and the salt that
    [generate_password_hash] draws while the request is served. *)
Record Request := mkRequest {
  method : Method;
  form   : list (string * string);
  salt   : string
}.

(* ------------------------------------------------------------------ *)
(** ** The monad of view functions *)

Inductive Outcome (A : Type) :=
| Return (a : A)
| Raise (e : Exn).
Arguments Raise {A} e.

Definition M (A : Type) := World -> Outcome A * World.

Definition ret {A} (a : A) : M A := fun w => (Return a, w).

Definition bind {A B} (m : M A) (k : A -> M B) : M B :=
  fun w => match m w with
           | (Return a, w') => k a w'
           | (Raise e, w')  => (Raise e, w')
           end.

Definition raise {A} (e : Exn) : M A := fun w => (Raise e, w).

Notation "x <- m ;; k" := (bind m (fun x => k))
  (at level 61, m at next level, right associativity).
Notation "m ;;; k" := (bind m (fun _ => k))
  (at level 61, right associativity).

Definition get_world : M World := fun w => (Return w, w).

Definition flash (message category : string) : M unit :=
  fun w => (Return tt,
            mkWorld (db w) (pending w) (session_user w)
                    (flashes w ++ [(message, category)]) (trace w)).

Definition log (q : Query) : M unit :=
  fun w => (Return tt,
            mkWorld (db w) (pending w) (session_user w) (flashes w)
                    (trace w ++ [q])).

(** [request.form[key]]. *)
Fixpoint form_lookup (key : string) (f : list (string * string)) : option string :=
  match f with
  | [] => None
  | (k, v) :: f' => if String.eqb k key then Some v else form_lookup key f'
  end.

Definition form_get (req : Request) (key : string) : M string :=
  match form_lookup key (form req) with
  | Some v => ret v
  | None => raise (BadRequestKeyError key)
  end.

(* ------------------------------------------------------------------ *)
(** ** [datetime.strptime(s, '%Y-%m-%d').date()]

    The standard library turns the format into the regular expression
    [(\d\d\d\d)-(1[0-2]|0[1-9]|[1-9])-(3[0-1]|[1-2]\d|0[1-9]|[1-9]| [1-9])],
    matches it at the start of the text (alternatives in order, with
    backtracking), raises [ValueError] when there is no match or when
    text remains after the match, and then builds the date, which raises
    [ValueError] again when the day does not exist.  A matcher returns
    its successes in the order the regular expression tries them.

    The pattern is a [str] pattern: [\d] takes any decimal digit of
    Unicode, and [int] reads its value, while the classes written out
    ([1-9] and the like) take the ASCII digits only. *)

Definition Matcher (A : Type) := list ascii -> list (A * list ascii).

Definition between (lo hi c : ascii) : bool :=
  (nat_of_ascii lo <=? nat_of_ascii c)%nat && (nat_of_ascii c <=? nat_of_ascii hi)%nat.

Definition is_digit (c : ascii) : bool := between "0" "9" c.

Definition digit_val (c : ascii) : Z := Z.of_nat (nat_of_ascii c) - 48.

(** A byte of a character outside ASCII: the high bit is set. *)
Definition beyond_ascii (c : ascii) : bool :=
  match c with Ascii _ _ _ _ _ _ _ b7 => b7 end.

(** A continuation byte of UTF-8: [10xxxxxx]. *)
Definition is_continuation (c : ascii) : bool :=
  match c with Ascii _ _ _ _ _ _ b6 b7 => b7 && negb b6 end.

(** One character of the class [lo-hi], read as a digit. *)
Definition cls (lo hi : ascii) : Matcher Z :=
  fun s => match s with
           | c :: r => if between lo hi c then [(digit_val c, r)] else []
           | [] => []
           end.

(** A literal character. *)
Definition lit (a : ascii) : Matcher unit :=
  fun s => match s with
           | c :: r => if Ascii.eqb c a then [(tt, r)] else []
           | [] => []
           end.

Definition seq {A B C} (f : A -> B -> C) (p : Matcher A) (q : Matcher B) : Matcher C :=
  fun s => flat_map (fun ar => map (fun br => (f (fst ar) (fst br), snd br)) (q (snd ar))) (p s).

Definition alt {A} (p q : Matcher A) : Matcher A := fun s => (p s ++ q s)%list.

Definition two_digits (hi lo : Z) : Z := 10 * hi + lo.

Section Strptime.

(** The decimal digits of Unicode other than [0-9]: [wide_digit s] reads
    one from the front of [s] and gives its value and the rest of the
    text, or [None] when [s] does not start with one. *)
Variable wide_digit : list ascii -> option (Z * list ascii).

(** [\d]: an ASCII digit, or a character outside ASCII that the
    Unicode table knows as a decimal digit. *)
Definition digit : Matcher Z :=
  fun s => match s with
           | c :: r =>
               if is_digit c then [(digit_val c, r)]
               else if beyond_ascii c then
                 match wide_digit s with
                 | Some vr => [vr]
                 | None => []
                 end
               else []
           | [] => []
           end.

(** [%Y]: [\d\d\d\d]. *)
Definition re_Y : Matcher Z :=
  seq two_digits (seq two_digits (seq two_digits digit digit) digit) digit.

(** [%m]: [1[0-2]|0[1-9]|[1-9]]. *)
Definition re_m : Matcher Z :=
  alt (seq two_digits (cls "1" "1") (cls "0" "2"))
 (alt (seq two_digits (cls "0" "0") (cls "1" "9"))
      (cls "1" "9")).

(** [%d]: [3[0-1]|[1-2]\d|0[1-9]|[1-9]| [1-9]]. *)
Definition re_d : Matcher Z :=
  alt (seq two_digits (cls "3" "3") (cls "0" "1"))
 (alt (seq two_digits (cls "1" "2") digit)
 (alt (seq two_digits (cls "0" "0") (cls "1" "9"))
 (alt (cls "1" "9")
      (seq (fun _ d => d) (lit " ") (cls "1" "9"))))).

Definition re_Ymd : Matcher (Z * Z * Z) :=
  seq (fun ym d => (fst ym, snd ym, d))
      (seq (fun ym _ => ym)
           (seq (fun y m => (y, m)) (seq (fun y _ => y) re_Y (lit "-")) re_m)
           (lit "-"))
      re_d.

Definition is_leap (y : Z) : bool :=
  (y mod 4 =? 0) && (negb (y mod 100 =? 0) || (y mod 400 =? 0)).

Definition days_in_month (y m : Z) : Z :=
  if m =? 2 then (if is_leap y then 29 else 28)
  else if (m =? 4) || (m =? 6) || (m =? 9) || (m =? 11) then 30
  else 31.

(** [datetime.date(y, m, d)]: [None] stands for its [ValueError]. *)
Definition make_date (y m d : Z) : option date :=
  if (1 <=? y) && (y <=? 9999) && (1 <=? m) && (m <=? 12)
     && (1 <=? d) && (d <=? days_in_month y m)
  then Some (mkDate y m d) else None.

(** [None] stands for [ValueError]. *)
Definition strptime_Ymd (s : string) : option date :=
  match re_Ymd (list_ascii_of_string s) with
  | (y, m, d, []) :: _ => make_date y m d
  | (_, _ :: _) :: _ => None          (* unconverted data remains *)
  | [] => None                        (* does not match the format *)
  end.

End Strptime.

(* ------------------------------------------------------------------ *)
(** ** Reading the store *)

(** [User.query.get(uid)]. *)
Definition user_get (uid : Z) (d : DB) : option User :=
  find (fun u => user_id u =? uid) (users d).

(** [User.query.filter_by(email=e).first()]. *)
Definition user_by_email (e : string) (d : DB) : option User :=
  find (fun u => String.eqb (email u) e) (users d).

(** [User.query.filter_by(role=r).all()]. *)
Definition users_by_role (r : string) (d : DB) : list User :=
  filter (fun u => String.eqb (role u) r) (users d).

(** [Project.query.filter_by(client_id=cid).all()]. *)
Definition projects_by_client (cid : Z) (d : DB) : list Project :=
  filter (fun p => client_id p =? cid) (projects d).

Definition date_leb (a b : date) : bool :=
  (year a <? year b)
  || ((year a =? year b)
      && ((month a <? month b) || ((month a =? month b) && (day a <=? day b)))).

(** [ORDER BY start_date DESC] on the store the program is configured for
    ([postgresql://...]): a null sorts as larger than every date, so under
    [DESC] the rows without a date come first.  [desc_geb x y] says that a
    row with start date [x] may stand before one with start date [y]. *)
Definition desc_geb (x y : option date) : bool :=
  match x, y with
  | None, _ => true
  | Some _, None => false
  | Some a, Some b => date_leb b a
  end.

Fixpoint insert_desc (p : Project) (l : list Project) : list Project :=
  match l with
  | [] => [p]
  | q :: l' => if desc_geb (start_date p) (start_date q)
               then p :: q :: l'
               else q :: insert_desc p l'
  end.

(** [Project.query.order_by(Project.start_date.desc()).all()].  The store
    leaves the order among equal start dates open; the model keeps the
    storage order among them. *)
Definition projects_by_start_date_desc (d : DB) : list Project :=
  fold_right insert_desc [] (projects d).

Definition query_user_get (uid : Z) : M (option User) :=
  log (QUserGet uid) ;;; w <- get_world ;; ret (user_get uid (db w)).

Definition query_user_by_email (e : string) : M (option User) :=
  log (QUserByEmail e) ;;; w <- get_world ;; ret (user_by_email e (db w)).

Definition query_users_by_role (r : string) : M (list User) :=
  log (QUsersByRole r) ;;; w <- get_world ;; ret (users_by_role r (db w)).

Definition query_projects_by_client (cid : Z) : M (list Project) :=
  log (QProjectsByClient cid) ;;; w <- get_world ;; ret (projects_by_client cid (db w)).

Definition query_projects_by_start_date_desc : M (list Project) :=
  log QProjectsByStartDateDesc ;;; w <- get_world ;;
  ret (projects_by_start_date_desc (db w)).

(* ------------------------------------------------------------------ *)
(** ** 3. Flask-Login *)

Definition login_message : string :=
  "Por favor, inicia sesión para acceder a esta página.".

(** [load_user]: the [user_loader] callback. *)
Definition load_user (uid : Z) : M (option User) := query_user_get uid.

(** [current_user]: the user the session cookie names, loaded through
    [load_user]; [None] is the anonymous user (no [_user_id] in the
    session, or no row with that id). *)
Definition current_user : M (option User) :=
  w <- get_world ;;
  match session_user w with
  | None => ret None
  | Some uid => load_user uid
  end.

(** [@login_required]: an anonymous request is answered by
    [login_manager.unauthorized()], which flashes [login_message] and
    redirects to [login_view] (the [next] argument of that URL is left
    out); otherwise the view runs with [current_user] bound to the loaded
    user. *)
Definition login_required (view : User -> M Response) : M Response :=
  cu <- current_user ;;
  match cu with
  | None => flash login_message "message" ;;; ret (Redirect "login")
  | Some u => view u
  end.

(** [login_user(user)]. *)
Definition login_user (u : User) : M unit :=
  fun w => (Return tt,
            mkWorld (db w) (pending w) (Some (user_id u)) (flashes w) (trace w)).

(** [logout_user()]. *)
Definition logout_user : M unit :=
  fun w => (Return tt, mkWorld (db w) (pending w) None (flashes w) (trace w)).

(** [db.session.add(obj)]. *)
Definition db_session_add (o : Pending) : M unit :=
  fun w => (Return tt,
            mkWorld (db w) (pending w ++ [o]) (session_user w) (flashes w) (trace w)).

(** The number of characters of a text: the bytes of its encoding that
    are not continuation bytes ([10xxxxxx]). *)
Fixpoint char_length (s : string) : nat :=
  match s with
  | EmptyString => 0%nat
  | String c r =>
      if is_continuation c then char_length r else S (char_length r)
  end.

(** A value fits a [String(n)] column: the store counts characters. *)
Definition fits (n : nat) (s : string) : bool := (char_length s <=? n)%nat.

Definition fits_opt (n : nat) (s : option string) : bool :=
  match s with Some v => fits n v | None => true end.

(* ------------------------------------------------------------------ *)
(** ** The program over its libraries *)

Section App.

(** [werkzeug.security.generate_password_hash], with the salt it draws
    made an argument, and [werkzeug.security.check_password_hash]. *)
Variable generate_password_hash : string -> string -> string.
Variable check_password_hash : string -> string -> bool.

(** The store's conversion of a text parameter to an [Integer] column. *)
Variable integer_in : string -> option Z.

(** The decimal digits of Unicode other than [0-9], as [strptime] knows
    them. *)
Variable wide_digit : list ascii -> option (Z * list ascii).

(** [User.set_password]. *)
Definition set_password (salt_ password_plana : string) (o : Pending) : Pending :=
  match o with
  | NewUser e _ n r emp =>
      NewUser e (Some (generate_password_hash salt_ password_plana)) n r emp
  | NewProject _ _ _ _ => o
  end.

(** [User.check_password]. *)
Definition check_password (u : User) (password_plana : string) : bool :=
  check_password_hash (password u) password_plana.

(** [INSERT INTO users]: the declared column widths, [nullable=False],
    the primary key and [unique=True] on [email] are enforced by the
    store.  The key comes from the table's sequence. *)
Definition insert_user (e : string) (pw : option string) (n r : string)
    (emp : option string) (d : DB) : Exn + DB :=
  match pw with
  | None => inl IntegrityError
  | Some h =>
      if negb (fits 100 e && fits 256 h && fits 100 n && fits 20 r && fits_opt 100 emp)
      then inl DataError
      else if existsb (fun u => user_id u =? users_seq d) (users d)
              || existsb (fun u => String.eqb (email u) e) (users d)
      then inl IntegrityError
      else inr (mkDB (users d ++ [mkUser (users_seq d) e h n r emp])
                     (projects d) (users_seq d + 1) (projects_seq d))
  end.

(** [INSERT INTO projects]: as above, with the foreign key on
    [client_id]. *)
Definition insert_project (n st : string) (sd : option date) (cid : string)
    (d : DB) : Exn + DB :=
  match integer_in cid with
  | None => inl DataError
  | Some c =>
      if negb (fits 200 n && fits 50 st)
      then inl DataError
      else if existsb (fun p => project_id p =? projects_seq d) (projects d)
              || negb (existsb (fun u => user_id u =? c) (users d))
      then inl IntegrityError
      else inr (mkDB (users d)
                     (projects d ++ [mkProject (projects_seq d) n st sd c])
                     (users_seq d) (projects_seq d + 1))
  end.

Definition insert (o : Pending) (d : DB) : Exn + DB :=
  match o with
  | NewUser e pw n r emp => insert_user e pw n r emp d
  | NewProject n st sd cid => insert_project n st sd cid d
  end.

(** What a refused [INSERT] leaves of [d].  A value that does not fit
    its column ([DataError]) is refused before the row is built.  A
    constraint ([IntegrityError]) is checked on the row once it has drawn
    its key, and a sequence is not rolled back: the rows are as before,
    the sequence of the table has moved on. *)
Definition refused (o : Pending) (e : Exn) (d : DB) : DB :=
  match e, o with
  | IntegrityError, NewUser _ _ _ _ _ =>
      mkDB (users d) (projects d) (users_seq d + 1) (projects_seq d)
  | IntegrityError, NewProject _ _ _ _ =>
      mkDB (users d) (projects d) (users_seq d) (projects_seq d + 1)
  | _, _ => d
  end.

(** The objects of the unit of work, written in order in one
    transaction that started at [d0]: when the store refuses one, the
    rows are those of [d0] again and the sequences stay where they got
    to. *)
Fixpoint flush (d0 : DB) (os : list Pending) (d : DB) : Exn * DB + DB :=
  match os with
  | [] => inr d
  | o :: os' => match insert o d with
                | inl e => let d' := refused o e d in
                           inl (e, mkDB (users d0) (projects d0)
                                        (users_seq d') (projects_seq d'))
                | inr d' => flush d0 os' d'
                end
  end.

(** [db.session.commit()]: the added objects are written in one
    transaction; when the store refuses one, no row is written and the
    error leaves the view function. *)
Definition db_session_commit : M unit :=
  fun w => match flush (db w) (pending w) (db w) with
           | inr d' => (Return tt,
                        mkWorld d' [] (session_user w) (flashes w) (trace w))
           | inl (e, d') => (Raise e,
                             mkWorld d' [] (session_user w) (flashes w) (trace w))
           end.

(* ------------------------------------------------------------------ *)
(** ** 4. Public routes *)

(** [index]. *)
Definition index (req : Request) : M Response :=
  ret (RenderTemplate "index.html" NoContext).

(** [login]. *)
Definition login (req : Request) : M Response :=
  match method req with
  | POST =>
      email_ <- form_get req "email" ;;
      password_plana <- form_get req "password" ;;
      user <- query_user_by_email email_ ;;
      match user with
      | Some u =>
          if check_password u password_plana then
            login_user u ;;;
            if String.eqb (role u) "admin"
            then ret (Redirect "admin_dashboard")
            else ret (Redirect "client_dashboard")
          else
            flash "Correo o contraseña incorrectos." "error" ;;;
            ret (RenderTemplate "login.html" NoContext)
      | None =>
          flash "Correo o contraseña incorrectos." "error" ;;;
          ret (RenderTemplate "login.html" NoContext)
      end
  | GET => ret (RenderTemplate "login.html" NoContext)
  end.

(** [register]. *)
Definition register (req : Request) : M Response :=
  match method req with
  | POST =>
      email_ <- form_get req "email" ;;
      name_ <- form_get req "name" ;;
      password_plana <- form_get req "password" ;;
      existing_user <- query_user_by_email email_ ;;
      match existing_user with
      | Some _ =>
          flash "Ese correo electrónico ya está registrado." "error" ;;;
          ret (Redirect "register")
      | None =>
          let new_user := NewUser email_ None name_ "client" None in
          let new_user := set_password (salt req) password_plana new_user in
          db_session_add new_user ;;;
          db_session_commit ;;;
          flash "¡Cuenta creada exitosamente! Ahora puedes iniciar sesión." "success" ;;;
          ret (Redirect "login")
      end
  | GET => ret (RenderTemplate "register.html" NoContext)
  end.

(** [logout]. *)
Definition logout (req : Request) : M Response :=
  login_required (fun _ =>
    logout_user ;;;
    ret (Redirect "index")).

(* ------------------------------------------------------------------ *)
(** ** 5. Private routes *)

(** [client_dashboard]. *)
Definition client_dashboard (req : Request) : M Response :=
  login_required (fun cu =>
    if negb (String.eqb (role cu) "client") then
      flash "Acceso no autorizado." "error" ;;;
      ret (Redirect "index")
    else
      projs <- query_projects_by_client (user_id cu) ;;
      ret (RenderTemplate "dashboard.html" (DashboardContext (name cu) projs))).

(** [admin_dashboard]. *)
Definition admin_dashboard (req : Request) : M Response :=
  login_required (fun cu =>
    if negb (String.eqb (role cu) "admin") then
      flash "Acceso no autorizado." "error" ;;;
      ret (Redirect "index")
    else
      clients <- query_users_by_role "client" ;;
      all_projects <- query_projects_by_start_date_desc ;;
      ret (RenderTemplate "admin.html" (AdminContext clients all_projects))).

(** [create_client]. *)
Definition create_client (req : Request) : M Response :=
  login_required (fun cu =>
    if negb (String.eqb (role cu) "admin") then
      ret (Redirect "index")
    else
      nombre <- form_get req "nombre" ;;
      apellido <- form_get req "apellido" ;;
      email_ <- form_get req "email" ;;
      password_plana <- form_get req "password" ;;
      empresa_ <- form_get req "empresa" ;;
      existing_user <- query_user_by_email email_ ;;
      match existing_user with
      | Some _ =>
          flash "Ese correo electrónico ya está registrado." "error" ;;;
          ret (Redirect "admin_dashboard")
      | None =>
          let full_name := nombre ++ " " ++ apellido in
          let new_client := NewUser email_ None full_name "client" (Some empresa_) in
          let new_client := set_password (salt req) password_plana new_client in
          db_session_add new_client ;;;
          db_session_commit ;;;
          flash "¡Cliente creado exitosamente!" "success" ;;;
          ret (Redirect "admin_dashboard")
      end).

(** [create_project]. *)
Definition create_project (req : Request) : M Response :=
  login_required (fun cu =>
    if negb (String.eqb (role cu) "admin") then
      ret (Redirect "index")
    else
      project_name <- form_get req "project_name" ;;
      status_ <- form_get req "status" ;;
      start_date_str <- form_get req "start_date" ;;
      client_id_ <- form_get req "client_id" ;;
      start_date_ <- match strptime_Ymd wide_digit start_date_str with
                     | Some d => ret d
                     | None => raise ValueError
                     end ;;
      let new_project := NewProject project_name status_ (Some start_date_) client_id_ in
      db_session_add new_project ;;;
      db_session_commit ;;;
      flash "¡Proyecto creado y asignado exitosamente!" "success" ;;;
      ret (Redirect "admin_dashboard")).

(* ------------------------------------------------------------------ *)
(** ** 6. Start-up *)

(** The block under [if __name__ == '__main__']: the admin account is
    created when no user has its email. *)
Definition seed_admin (salt_ : string) : M unit :=
  existing <- query_user_by_email "admin@consultoria.py" ;;
  match existing with
  | Some _ => ret tt
  | None =>
      let admin := NewUser "admin@consultoria.py" None "Administrador" "admin"
                           (Some "Consultoría PY") in
      let admin := set_password salt_ "admin123" admin in
      db_session_add admin ;;;
      db_session_commit
  end.

(** One request: the unit of work and the log start empty, the view
    function runs, and what it left unflushed is dropped with the request.
    An exception that leaves the view function is the outcome of the
    request. *)
Definition begin_request (w : World) : World :=
  mkWorld (db w) [] (session_user w) (flashes w) [].

Definition end_request (w : World) : World :=
  mkWorld (db w) [] (session_user w) (flashes w) (trace w).

Definition serve (view : Request -> M Response) (req : Request) (w : World)
  : Outcome Response * World :=
  let (r, w') := view req (begin_request w) in (r, end_request w').

Definition boot (salt_ : string) (w : World) : Outcome unit * World :=
  let (r, w') := seed_admin salt_ (begin_request w) in (r, end_request w').

End App.

(* ------------------------------------------------------------------ *)
(** ** Stand-ins for the libraries

    The program is run on concrete inputs with these in place of the
    libraries: a hash that tags the password (it has the shape the
    proofs need, not the strength of the real one) and the conversion of
    an unsigned decimal numeral. *)

Definition tag_generate_password_hash (salt_ password_plana : string) : string :=
  "tag$" ++ password_plana.

Definition tag_check_password_hash (pwhash password_plana : string) : bool :=
  String.eqb pwhash ("tag$" ++ password_plana).

Fixpoint decimal_value (acc : Z) (s : list ascii) : option Z :=
  match s with
  | [] => Some acc
  | c :: r => if is_digit c then decimal_value (10 * acc + digit_val c) r else None
  end.

Definition decimal_in (s : string) : option Z :=
  match list_ascii_of_string s with
  | [] => None
  | l => decimal_value 0 l
  end.

(** A table of wide digits with two of the scripts of Unicode: the
    Arabic-Indic digits (U+0660 to U+0669, the bytes [D9 A0] to [D9 A9])
    and the fullwidth digits (U+FF10 to U+FF19, [EF BC 90] to
    [EF BC 99]). *)
Definition two_scripts (s : list ascii) : option (Z * list ascii) :=
  match s with
  | a :: b :: r =>
      if (nat_of_ascii a =? 217)%nat
         && (160 <=? nat_of_ascii b)%nat && (nat_of_ascii b <=? 169)%nat
      then Some (Z.of_nat (nat_of_ascii b) - 160, r)
      else match r with
           | c :: r' =>
               if (nat_of_ascii a =? 239)%nat && (nat_of_ascii b =? 188)%nat
                  && (144 <=? nat_of_ascii c)%nat && (nat_of_ascii c <=? 153)%nat
               then Some (Z.of_nat (nat_of_ascii c) - 144, r')
               else None
           | [] => None
           end
  | _ => None
  end.

(** A hash that has one thing in common with those of the library: the
    HMAC they are built on pads its key with NUL, so a password and the
    same password followed by NUL characters have the same hash. *)
Fixpoint strip_nuls (s : string) : string :=
  match s with
  | EmptyString => EmptyString
  | String c r =>
      match strip_nuls r with
      | EmptyString => if Ascii.eqb c Ascii.zero then EmptyString
                       else String c EmptyString
      | r' => String c r'
      end
  end.

Definition hmac_generate_password_hash (salt_ password_plana : string) : string :=
  "hmac$" ++ strip_nuls password_plana.

Definition hmac_check_password_hash (pwhash password_plana : string) : bool :=
  String.eqb pwhash ("hmac$" ++ strip_nuls password_plana).

(** The password [pw9] followed by one NUL character. *)
Definition pw9_nul : string := "pw9" ++ String Ascii.zero EmptyString.

(** A world to run examples in: the seeded administrator (id 1), two
    clients (ids 2 and 3), a user whose role is neither, and four
    projects, one of them without a start date. *)
Definition sample_db : DB :=
  mkDB [ mkUser 1 "admin@consultoria.py" "tag$admin123" "Administrador" "admin"
                (Some "Consultoría PY");
         mkUser 2 "c@x.com" "tag$pw1" "Ana Gil" "client" (Some "X");
         mkUser 3 "d@y.com" "tag$pw2" "Luis Paz" "client" None;
         mkUser 4 "e@z.com" "tag$pw3" "Eva" "guest" None ]
       [ mkProject 1 "Website Redesign" "Pendiente" (Some (mkDate 2024 1 1)) 2;
         mkProject 2 "Audit" "En Progreso" None 3;
         mkProject 3 "Migration" "Completado" (Some (mkDate 2024 6 30)) 2;
         mkProject 4 "Training" "Pendiente" (Some (mkDate 2023 11 5)) 3 ]
       5 5.

Definition world_of (d : DB) (s : option Z) : World := mkWorld d [] s [] [].

Definition post (f : list (string * string)) : Request := mkRequest POST f "NaCl".

Definition get : Request := mkRequest GET [] "NaCl".

(** The user a request is authenticated as, read off the world: what
    [current_user] loads. *)
Definition authenticated (w : World) : option User :=
  match session_user w with
  | None => None
  | Some uid => user_get uid (db w)
  end.

(** No read of project rows or of the client list in a log. *)
Definition no_data_query (t : list Query) : bool :=
  forallb (fun q => negb (is_data_query q)) t.

(** The rows of [d'] are those of [d], and no sequence has moved
    back. *)
Definition same_rows (d d' : DB) : Prop :=
  users d' = users d /\ projects d' = projects d
  /\ users_seq d <= users_seq d' /\ projects_seq d <= projects_seq d'.

(** The keys the sequences will hand out are larger than the keys in
    use. *)
Definition fresh_keys (d : DB) : Prop :=
  (forall u, In u (users d) -> user_id u < users_seq d)
  /\ (forall p, In p (projects d) -> project_id p < projects_seq d).

(** Every project refers to a stored user. *)
Definition references_hold (d : DB) : Prop :=
  forall p, In p (projects d) -> exists u, In u (users d) /\ user_id u = client_id p.

(** Between [d] and [d'] the user table is unchanged, or it has one more
    row, whose stored password is the hash of [plain] under [salt_] and is
    not [plain] itself. *)
Definition stored_hashed (gen : string -> string -> string)
    (salt_ plain : string) (d d' : DB) : Prop :=
  users d' = users d
  \/ exists nu, users d' = (users d ++ [nu])%list
               /\ password nu = gen salt_ plain
               /\ password nu <> plain.

Definition has_date (p : Project) : bool :=
  match start_date p with Some _ => true | None => false end.

(** The rows without a start date stand before all the others. *)
Fixpoint nulls_first (l : list Project) : bool :=
  match l with
  | [] => true
  | p :: r => if has_date p then forallb has_date r else nulls_first r
  end.

(** The reading of the specification: the rows without a start date
    stand after all the others. *)
Fixpoint nulls_last (l : list Project) : bool :=
  match l with
  | [] => true
  | p :: r => if has_date p then nulls_last r
              else forallb (fun q => negb (has_date q)) r
  end.

(** [p] may stand before [q] under [ORDER BY start_date DESC]. *)
Definition desc_order (p q : Project) : Prop :=
  desc_geb (start_date p) (start_date q) = true.

(* ------------------------------------------------------------------ *)
(** ** The URL map *)

(** The view functions registered with [@app.route]. *)
Inductive Endpoint :=
| Index | Login | Register | Logout
| ClientDashboard | AdminDashboard | CreateClient | CreateProject.

Definition all_endpoints : list Endpoint :=
  [Index; Login; Register; Logout;
   ClientDashboard; AdminDashboard; CreateClient; CreateProject].

(** The name [url_for] knows an endpoint by: the name of its function. *)
Definition endpoint_name (ep : Endpoint) : string :=
  match ep with
  | Index => "index"
  | Login => "login"
  | Register => "register"
  | Logout => "logout"
  | ClientDashboard => "client_dashboard"
  | AdminDashboard => "admin_dashboard"
  | CreateClient => "create_client"
  | CreateProject => "create_project"
  end.

(** The rule of each [@app.route] line: the path and the methods. *)
Definition rule (ep : Endpoint) : string * list Method :=
  match ep with
  | Index => ("/", [GET])
  | Login => ("/login", [GET; POST])
  | Register => ("/register", [GET; POST])
  | Logout => ("/logout", [GET])
  | ClientDashboard => ("/dashboard", [GET])
  | AdminDashboard => ("/admin", [GET])
  | CreateClient => ("/create_client", [POST])
  | CreateProject => ("/create_project", [POST])
  end.

(** The routes decorated with [@login_required]. *)
Definition login_protected (ep : Endpoint) : bool :=
  match ep with
  | Index | Login | Register => false
  | Logout | ClientDashboard | AdminDashboard | CreateClient | CreateProject => true
  end.

Definition method_eqb (a b : Method) : bool :=
  match a, b with
  | GET, GET | POST, POST => true
  | _, _ => false
  end.

(** [url_for(n)] resolves, and the rule it resolves to takes [GET]. *)
Definition redirect_target_ok (n : string) : bool :=
  existsb (fun ep => String.eqb (endpoint_name ep) n
                     && existsb (method_eqb GET) (snd (rule ep)))
          all_endpoints.

Section Routes.

Variable generate_password_hash : string -> string -> string.
Variable check_password_hash : string -> string -> bool.
Variable integer_in : string -> option Z.
Variable wide_digit : list ascii -> option (Z * list ascii).

Definition view_function (ep : Endpoint) : Request -> M Response :=
  match ep with
  | Index => index
  | Login => login check_password_hash
  | Register => register generate_password_hash integer_in
  | Logout => logout
  | ClientDashboard => client_dashboard
  | AdminDashboard => admin_dashboard
  | CreateClient => create_client generate_password_hash integer_in
  | CreateProject => create_project integer_in wide_digit
  end.

(** A request to an endpoint, and the world it leaves. *)
Definition respond (ep : Endpoint) (req : Request) (w : World) : Outcome Response :=
  fst (serve (view_function ep) req w).

Definition after (ep : Endpoint) (req : Request) (w : World) : World :=
  snd (serve (view_function ep) req w).

End Routes.

(** The first of [keys] that the form does not have. *)
Fixpoint first_missing (keys : list string) (f : list (string * string))
  : option string :=
  match keys with
  | [] => None
  | k :: ks => match form_lookup k f with
               | Some _ => first_missing ks f
               | None => Some k
               end
  end.

(** The session is the one of an administrator. *)
Definition admin_session (w : World) : Prop :=
  exists u, authenticated w = Some u /\ role u = "admin".

(** What a route may hand to the store: a user with role 'client' and a
    hashed password, from [register] or from [create_client] under an
    admin session; a project with a start date that [strptime] read off
    the form, from [create_project] under an admin session. *)
Definition write_allowed (gen : string -> string -> string)
    (wd : list ascii -> option (Z * list ascii))
    (ep : Endpoint) (req : Request) (w : World) (o : Pending) : Prop :=
  match o with
  | NewUser e pw n r emp =>
      r = "client"
      /\ (exists plain, form_lookup "password" (form req) = Some plain
                        /\ pw = Some (gen (salt req) plain))
      /\ form_lookup "email" (form req) = Some e
      /\ (ep = Register \/ (ep = CreateClient /\ admin_session w))
  | NewProject n st sd cid =>
      ep = CreateProject
      /\ admin_session w
      /\ form_lookup "client_id" (form req) = Some cid
      /\ exists s d, form_lookup "start_date" (form req) = Some s
                     /\ strptime_Ymd wd s = Some d /\ sd = Some d
  end.

(** A date of the calendar. *)
Definition real_date (d : date) : Prop :=
  1 <= year d <= 9999 /\ 1 <= month d <= 12
  /\ 1 <= day d <= days_in_month (year d) (month d).

(** The form fields a view function reads, in the order it reads them. *)
Definition form_keys (ep : Endpoint) : list string :=
  match ep with
  | Login => ["email"; "password"]
  | Register => ["email"; "name"; "password"]
  | CreateClient => ["nombre"; "apellido"; "email"; "password"; "empresa"]
  | CreateProject => ["project_name"; "status"; "start_date"; "client_id"]
  | Index | Logout | ClientDashboard | AdminDashboard => []
  end.

(** Rows and forms of the examples. *)
Definition sample_admin : User :=
  mkUser 1 "admin@consultoria.py" "tag$admin123" "Administrador" "admin"
         (Some "Consultoría PY").

Definition sample_client : User :=
  mkUser 2 "c@x.com" "tag$pw1" "Ana Gil" "client" (Some "X").

Definition client_form : list (string * string) :=
  [("nombre", "Nora"); ("apellido", "Rey"); ("email", "n@x.com");
   ("password", "pw9"); ("empresa", "N")].

Definition project_form (cid : string) : list (string * string) :=
  [("project_name", "Website Redesign"); ("status", "Pendiente");
   ("start_date", "2024-01-01"); ("client_id", cid)].

Definition sample_client_3 : User :=
  mkUser 3 "d@y.com" "tag$pw2" "Luis Paz" "client" None.

(* ================================================================== *)
(** * Properties *)

Local Open Scope list_scope.

(** ** The monad and the request cycle *)

Ltac unfold_view :=
  unfold serve, boot, login_required, current_user, load_user,
    query_user_get, query_user_by_email, query_users_by_role,
    query_projects_by_client, query_projects_by_start_date_desc,
    form_get, db_session_add, db_session_commit, login_user, logout_user,
    flash, log, get_world, bind, ret, raise, begin_request, end_request.

Ltac use_eqs :=
  repeat (cbn [db pending session_user flashes trace fst snd];
          match goal with
          | H : ?x = _ |- context [?x] => rewrite H
          end).

Ltac run := unfold_view; use_eqs; cbn [db pending session_user flashes trace fst snd].

Lemma user_get_id : forall uid d u, user_get uid d = Some u -> user_id u = uid.
Proof.
  unfold user_get; intros uid d u H.
  apply find_some in H. destruct H as [_ H]. now apply Z.eqb_eq in H.
Qed.

Lemma user_get_In : forall uid d u, user_get uid d = Some u -> In u (users d).
Proof.
  unfold user_get; intros uid d u H. apply find_some in H. tauto.
Qed.

Lemma authenticated_inv :
  forall w u, authenticated w = Some u ->
    session_user w = Some (user_id u) /\ user_get (user_id u) (db w) = Some u.
Proof.
  unfold authenticated; intros w u H.
  destruct (session_user w) as [uid|] eqn:E; [|discriminate].
  pose proof (user_get_id _ _ H) as Hid. subst uid. auto.
Qed.

(** ** C1 *)

(** C1. For a session whose user has role 'client', the dashboard is
    rendered with exactly the Project rows whose [client_id] is the id of
    that user: the rows of [projects] that pass the filter, each as often
    as it is stored, and no row of another user. *)
Theorem client_dashboard_own_projects :
  forall (w : World) (req : Request) (u : User),
    authenticated w = Some u ->
    role u = "client" ->
    fst (serve client_dashboard req w)
      = Return (RenderTemplate "dashboard.html"
                  (DashboardContext (name u)
                     (filter (fun p => client_id p =? user_id u) (projects (db w)))))
    /\ (forall p, In p (filter (fun p => client_id p =? user_id u) (projects (db w)))
                  <-> In p (projects (db w)) /\ client_id p = user_id u)
    /\ db (snd (serve client_dashboard req w)) = db w.
Proof.
  intros w req u Hau Hrole.
  apply authenticated_inv in Hau. destruct Hau as [Hs Hg].
  unfold client_dashboard. run. cbn.
  split; [reflexivity|]. split; [|reflexivity].
  intro p. rewrite filter_In, Z.eqb_eq. tauto.
Qed.

Lemma client_dashboard_own_projects_witness :
  authenticated (world_of sample_db (Some 2)) = Some (mkUser 2 "c@x.com" "tag$pw1" "Ana Gil" "client" (Some "X"))
  /\ fst (serve client_dashboard get (world_of sample_db (Some 2)))
     = Return (RenderTemplate "dashboard.html"
         (DashboardContext "Ana Gil"
            [ mkProject 1 "Website Redesign" "Pendiente" (Some (mkDate 2024 1 1)) 2;
              mkProject 3 "Migration" "Completado" (Some (mkDate 2024 6 30)) 2 ])).
Proof.
  split; [reflexivity|].
  exact (proj1 (client_dashboard_own_projects (world_of sample_db (Some 2)) get
                  (u := mkUser 2 "c@x.com" "tag$pw1" "Ana Gil" "client" (Some "X"))
                  eq_refl eq_refl)).
Defined.

(** ** The store accepts a well-formed row *)

Lemma fits_le : forall n s, (char_length s <= n)%nat -> fits n s = true.
Proof. intros n s H. unfold fits. now apply Nat.leb_le. Qed.

Lemma fresh_user_key :
  forall d, fresh_keys d ->
    existsb (fun u => user_id u =? users_seq d) (users d) = false.
Proof.
  intros d [Hu _]. apply not_true_is_false. intro H.
  apply existsb_exists in H. destruct H as [u [Hin Heq]].
  apply Z.eqb_eq in Heq. specialize (Hu u Hin). lia.
Qed.

Lemma fresh_project_key :
  forall d, fresh_keys d ->
    existsb (fun p => project_id p =? projects_seq d) (projects d) = false.
Proof.
  intros d [_ Hp]. apply not_true_is_false. intro H.
  apply existsb_exists in H. destruct H as [p [Hin Heq]].
  apply Z.eqb_eq in Heq. specialize (Hp p Hin). lia.
Qed.

Lemma user_by_email_None :
  forall e d, user_by_email e d = None <-> (forall u, In u (users d) -> email u <> e).
Proof.
  unfold user_by_email; intros e d; split.
  - intros H u Hin Heq. eapply find_none in H; eauto.
    apply String.eqb_neq in H. contradiction.
  - intros H. destruct (find _ (users d)) as [u|] eqn:E; [|reflexivity].
    apply find_some in E. destruct E as [Hin Heq].
    apply String.eqb_eq in Heq. exfalso. eapply H; eauto.
Qed.

Lemma user_by_email_Some :
  forall e d u, user_by_email e d = Some u -> In u (users d) /\ email u = e.
Proof.
  unfold user_by_email; intros e d u H. apply find_some in H.
  destruct H as [Hin Heq]. apply String.eqb_eq in Heq. auto.
Qed.

Lemma email_unused :
  forall e d, user_by_email e d = None ->
    existsb (fun u => String.eqb (email u) e) (users d) = false.
Proof.
  intros e d H. apply not_true_is_false. intro Hex.
  apply existsb_exists in Hex. destruct Hex as [u [Hin Heq]].
  apply String.eqb_eq in Heq.
  apply (proj1 (user_by_email_None e d) H u Hin Heq).
Qed.

Lemma insert_project_accepts :
  forall integer_in n st sd cid c d,
    integer_in cid = Some c ->
    (char_length n <= 200)%nat ->
    (char_length st <= 50)%nat ->
    (exists cl, In cl (users d) /\ user_id cl = c) ->
    fresh_keys d ->
    insert_project integer_in n st sd cid d
    = inr (mkDB (users d) (projects d ++ [mkProject (projects_seq d) n st sd c])
                (users_seq d) (projects_seq d + 1)).
Proof.
  intros integer_in n st sd cid c d Hc Hn Hst [cl [Hin Hid]] Hfresh.
  unfold insert_project. rewrite Hc, (fits_le _ Hn), (fits_le _ Hst).
  rewrite (fresh_project_key Hfresh). cbn.
  replace (existsb (fun u => user_id u =? c) (users d)) with true; [reflexivity|].
  symmetry. apply existsb_exists. exists cl. split; [assumption|]. now apply Z.eqb_eq.
Qed.

Lemma insert_user_accepts :
  forall e h n r emp d,
    (char_length e <= 100)%nat ->
    (char_length h <= 256)%nat ->
    (char_length n <= 100)%nat ->
    (char_length r <= 20)%nat ->
    fits_opt 100 emp = true ->
    user_by_email e d = None ->
    fresh_keys d ->
    insert_user e (Some h) n r emp d
    = inr (mkDB (users d ++ [mkUser (users_seq d) e h n r emp]) (projects d)
                (users_seq d + 1) (projects_seq d)).
Proof.
  intros e h n r emp d He Hh Hn Hr Hemp Hnone Hfresh.
  unfold insert_user.
  rewrite (fits_le _ He), (fits_le _ Hh), (fits_le _ Hn), (fits_le _ Hr), Hemp.
  rewrite (fresh_user_key Hfresh), (email_unused _ _ Hnone). reflexivity.
Qed.

(** ** C2 *)

(** C2, as the code has it.  For an admin session and a form with the
    four fields of the project form, whatever decimal digits Unicode has
    beside [0-9]:
    - a [start_date] that [strptime] does not accept makes [create_project]
      raise [ValueError]; nothing catches it, so the request ends in that
      exception, with no redirect and no flashed message, and the database
      is as before;
    - a [start_date] that parses to [d], with a [client_id] that names an
      existing user, a name and status that fit their columns and the
      key sequences ahead of the stored keys, adds one Project row whose
      stored date is [d], and answers with a redirect to the admin
      dashboard;
    - ["2024-03-15"] parses to the date 2024-03-15. *)
Theorem create_project_start_date :
  forall (integer_in : string -> option Z)
         (wide_digit : list ascii -> option (Z * list ascii))
         (w : World) (req : Request) (u : User) (pn st sd cid : string),
    authenticated w = Some u ->
    role u = "admin" ->
    form_lookup "project_name" (form req) = Some pn ->
    form_lookup "status" (form req) = Some st ->
    form_lookup "start_date" (form req) = Some sd ->
    form_lookup "client_id" (form req) = Some cid ->
    (strptime_Ymd wide_digit sd = None ->
       fst (serve (create_project integer_in wide_digit) req w) = Raise ValueError
       /\ db (snd (serve (create_project integer_in wide_digit) req w)) = db w
       /\ flashes (snd (serve (create_project integer_in wide_digit) req w)) = flashes w)
    /\ (forall d c,
          strptime_Ymd wide_digit sd = Some d ->
          integer_in cid = Some c ->
          (char_length pn <= 200)%nat ->
          (char_length st <= 50)%nat ->
          (exists cl, In cl (users (db w)) /\ user_id cl = c) ->
          fresh_keys (db w) ->
          fst (serve (create_project integer_in wide_digit) req w)
            = Return (Redirect "admin_dashboard")
          /\ projects (db (snd (serve (create_project integer_in wide_digit) req w)))
             = projects (db w) ++ [mkProject (projects_seq (db w)) pn st (Some d) c]
          /\ users (db (snd (serve (create_project integer_in wide_digit) req w)))
             = users (db w))
    /\ (sd = "2024-03-15" -> strptime_Ymd wide_digit sd = Some (mkDate 2024 3 15)).
Proof.
  intros integer_in wide_digit w req u pn st sd cid Hau Hrole Hpn Hst Hsd Hcid.
  apply authenticated_inv in Hau. destruct Hau as [Hs Hg].
  split; [|split].
  - intro Hnone. unfold create_project. run. cbn. auto.
  - intros d c Hd Hc Lpn Lst Hcl Hfresh.
    unfold create_project. run. cbn.
    rewrite (@insert_project_accepts integer_in pn st (Some d) cid c (db w) Hc Lpn Lst Hcl Hfresh).
    cbn. auto.
  - intros ->. reflexivity.
Qed.

(** The claim fails as stated: a date in another format makes the
    request end in [ValueError]; there is no redirect and no flashed
    message. *)
Lemma create_project_bad_date_not_caught :
  let r := serve (create_project decimal_in two_scripts)
             (post [("project_name", "Website Redesign"); ("status", "Pendiente");
                    ("start_date", "15/03/2024"); ("client_id", "2")])
             (world_of sample_db (Some 1)) in
  fst r = Raise ValueError
  /\ (forall endpoint, fst r <> Return (Redirect endpoint))
  /\ flashes (snd r) = [].
Proof.
  cbn. split; [reflexivity|]. split; [|reflexivity].
  intros endpoint H. discriminate H.
Qed.

Lemma create_project_start_date_witness :
  (let r := serve (create_project decimal_in two_scripts)
              (post [("project_name", "Website Redesign"); ("status", "Pendiente");
                     ("start_date", "March 15"); ("client_id", "2")])
              (world_of sample_db (Some 1)) in
   fst r = Raise ValueError /\ db (snd r) = sample_db /\ flashes (snd r) = [])
  /\
  (let r := serve (create_project decimal_in two_scripts)
              (post [("project_name", "Website Redesign"); ("status", "Pendiente");
                     ("start_date", "2024-03-15"); ("client_id", "2")])
              (world_of sample_db (Some 1)) in
   projects (db (snd r))
   = projects sample_db
     ++ [mkProject 5 "Website Redesign" "Pendiente" (Some (mkDate 2024 3 15)) 2]).
Proof.
  split.
  - refine (proj1 (@create_project_start_date decimal_in two_scripts (world_of sample_db (Some 1))
                     (post [("project_name", "Website Redesign"); ("status", "Pendiente");
                            ("start_date", "March 15"); ("client_id", "2")])
                     (mkUser 1 "admin@consultoria.py" "tag$admin123" "Administrador"
                             "admin" (Some "Consultoría PY"))
                     "Website Redesign" "Pendiente" "March 15" "2"
                     eq_refl eq_refl eq_refl eq_refl eq_refl eq_refl) eq_refl).
  - refine (proj1 (proj2 (proj1 (proj2
             (@create_project_start_date decimal_in two_scripts (world_of sample_db (Some 1))
                     (post [("project_name", "Website Redesign"); ("status", "Pendiente");
                            ("start_date", "2024-03-15"); ("client_id", "2")])
                     (mkUser 1 "admin@consultoria.py" "tag$admin123" "Administrador"
                             "admin" (Some "Consultoría PY"))
                     "Website Redesign" "Pendiente" "2024-03-15" "2"
                     eq_refl eq_refl eq_refl eq_refl eq_refl eq_refl))
             (mkDate 2024 3 15) 2 eq_refl eq_refl _ _ _ _))).
    + cbn; lia.
    + cbn; lia.
    + exists (mkUser 2 "c@x.com" "tag$pw1" "Ana Gil" "client" (Some "X")).
      cbn. auto.
    + split; cbn; intros x Hx;
        repeat (destruct Hx as [Hx|Hx]; [subst x; cbn; lia|]); contradiction.
Defined.

(** ** C3 and C4: registration and authentication *)

Lemma find_app_new :
  forall (A : Type) (f : A -> bool) (l : list A) (x : A),
    (forall y, In y l -> f y = false) -> f x = true ->
    find f (l ++ [x]) = Some x.
Proof.
  intros A f l x Hl Hx. induction l as [|a l IH]; cbn.
  - now rewrite Hx.
  - rewrite (Hl a (or_introl eq_refl)). apply IH.
    intros y Hy. apply Hl. now right.
Qed.

Lemma sample_db_fresh : fresh_keys sample_db.
Proof.
  split; cbn; intros x Hx;
    repeat (destruct Hx as [Hx|Hx]; [subst x; cbn; lia|]); contradiction.
Qed.

(** What a registration with an unused email does, step by step. *)
Lemma register_new_email :
  forall gen int_in (w : World) (req : Request) (e n pw : string),
    method req = POST ->
    form_lookup "email" (form req) = Some e ->
    form_lookup "name" (form req) = Some n ->
    form_lookup "password" (form req) = Some pw ->
    (char_length e <= 100)%nat ->
    (char_length n <= 100)%nat ->
    (char_length (gen (salt req) pw) <= 256)%nat ->
    user_by_email e (db w) = None ->
    fresh_keys (db w) ->
    serve (register gen int_in) req w
    = (Return (Redirect "login"),
       mkWorld (mkDB (users (db w)
                        ++ [mkUser (users_seq (db w)) e (gen (salt req) pw) n "client" None])
                     (projects (db w)) (users_seq (db w) + 1) (projects_seq (db w)))
               [] (session_user w)
               (flashes w ++ [("¡Cuenta creada exitosamente! Ahora puedes iniciar sesión.",
                               "success")])
               [QUserByEmail e]).
Proof.
  intros gen int_in w req e n pw Hm He Hn Hpw Le Ln Lh Hnone Hfresh.
  unfold register. run. cbn -[insert_user].
  rewrite (@insert_user_accepts e (gen (salt req) pw) n "client" None (db w));
    auto; cbn; lia.
Qed.

(** C3, as the code has it.  Registering a pair the store accepts (email
    and name within 100 characters, the hash within 256, the key
    sequences ahead of the stored keys) under an email no user has
    answers with the redirect to the login page, and in the world it
    leaves: logging in with the same email and password redirects to the
    client dashboard with the session naming the new user; logging in
    with the same email and a password that [check_password_hash]
    refuses for the stored hash re-renders the login page with the
    message 'Correo o contraseña incorrectos.' and leaves the session as
    it was.  Of the hash library only this is used: it accepts the
    password a hash was made from. *)
Theorem register_then_authenticate :
  forall gen chk int_in
         (Hhash : forall s p, chk (gen s p) p = true)
         (w : World) (req : Request) (e n pw : string),
    method req = POST ->
    form_lookup "email" (form req) = Some e ->
    form_lookup "name" (form req) = Some n ->
    form_lookup "password" (form req) = Some pw ->
    (char_length e <= 100)%nat ->
    (char_length n <= 100)%nat ->
    (char_length (gen (salt req) pw) <= 256)%nat ->
    (forall u, In u (users (db w)) -> email u <> e) ->
    fresh_keys (db w) ->
    fst (serve (register gen int_in) req w) = Return (Redirect "login")
    /\ forall (lreq : Request) (pw' : string),
         method lreq = POST ->
         form_lookup "email" (form lreq) = Some e ->
         form_lookup "password" (form lreq) = Some pw' ->
         let w1 := snd (serve (register gen int_in) req w) in
         let new_user := mkUser (users_seq (db w)) e (gen (salt req) pw) n "client" None in
         (pw' = pw ->
            fst (serve (login chk) lreq w1) = Return (Redirect "client_dashboard")
            /\ authenticated (snd (serve (login chk) lreq w1)) = Some new_user)
         /\ (chk (gen (salt req) pw) pw' = false ->
            fst (serve (login chk) lreq w1)
              = Return (RenderTemplate "login.html" NoContext)
            /\ flashes (snd (serve (login chk) lreq w1))
               = flashes w1 ++ [("Correo o contraseña incorrectos.", "error")]
            /\ session_user (snd (serve (login chk) lreq w1)) = session_user w).
Proof.
  intros gen chk int_in Hhash w req e n pw Hm He Hn Hpw Le Ln Lh Hfree Hfresh.
  assert (Hnone : user_by_email e (db w) = None) by now apply user_by_email_None.
  rewrite (register_new_email gen int_in w req Hm He Hn Hpw Le Ln Lh Hnone Hfresh).
  split; [reflexivity|].
  intros lreq pw' Lm Le' Lpw' w1 new_user. subst w1. cbn [snd].
  assert (Hfound : user_by_email e
            (mkDB (users (db w) ++ [new_user]) (projects (db w))
                  (users_seq (db w) + 1) (projects_seq (db w))) = Some new_user).
  { unfold user_by_email. cbn [users]. apply find_app_new.
    - intros y Hy. apply String.eqb_neq. now apply Hfree.
    - cbn. apply String.eqb_refl. }
  assert (Hget : user_get (users_seq (db w))
            (mkDB (users (db w) ++ [new_user]) (projects (db w))
                  (users_seq (db w) + 1) (projects_seq (db w))) = Some new_user).
  { unfold user_get. cbn [users]. apply find_app_new.
    - intros y Hy. apply Z.eqb_neq. destruct Hfresh as [Hu _].
      specialize (Hu y Hy). lia.
    - cbn. apply Z.eqb_refl. }
  fold new_user.
  split.
  - intros ->. unfold login. run. unfold check_password. cbn [password new_user].
    rewrite Hhash.
    cbn -[authenticated]. split; [reflexivity|].
    unfold authenticated. cbn -[user_get]. exact Hget.
  - intros Hrefused. unfold login. run. unfold check_password.
    cbn [password new_user]. rewrite Hrefused. cbn. auto.
Qed.

Lemma tag_hash_exact :
  forall s p p', tag_check_password_hash (tag_generate_password_hash s p) p' = true
                 <-> p' = p.
Proof.
  intros s p p'. unfold tag_check_password_hash, tag_generate_password_hash.
  rewrite String.eqb_eq. cbn. split.
  - intro H. now injection H.
  - now intros ->.
Qed.

Lemma sample_db_email_unused :
  forall u, In u (users sample_db) -> email u <> "n@x.com".
Proof.
  cbn. intros u Hu.
  repeat (destruct Hu as [Hu|Hu]; [subst u; cbn; discriminate|]). contradiction.
Qed.

Lemma tag_hash_accepts :
  forall s p, tag_check_password_hash (tag_generate_password_hash s p) p = true.
Proof. intros s p. now apply tag_hash_exact. Qed.

Lemma register_then_authenticate_witness :
  let req := post [("email", "n@x.com"); ("name", "Nora"); ("password", "pw9")] in
  let w1 := snd (serve (register tag_generate_password_hash decimal_in) req
                       (world_of sample_db None)) in
  fst (serve (register tag_generate_password_hash decimal_in) req
             (world_of sample_db None)) = Return (Redirect "login")
  /\ fst (serve (login tag_check_password_hash)
                (post [("email", "n@x.com"); ("password", "pw9")]) w1)
     = Return (Redirect "client_dashboard")
  /\ fst (serve (login tag_check_password_hash)
                (post [("email", "n@x.com"); ("password", "pw8")]) w1)
     = Return (RenderTemplate "login.html" NoContext).
Proof.
  intros req w1.
  assert (L100 : (char_length "n@x.com" <= 100)%nat) by (cbn; lia).
  assert (L100' : (char_length "Nora" <= 100)%nat) by (cbn; lia).
  assert (L256 : (char_length (tag_generate_password_hash (salt req) "pw9") <= 256)%nat)
    by (cbn; lia).
  destruct (@register_then_authenticate tag_generate_password_hash
              tag_check_password_hash decimal_in tag_hash_accepts
              (world_of sample_db None) req "n@x.com" "Nora" "pw9"
              eq_refl eq_refl eq_refl eq_refl L100 L100' L256
              sample_db_email_unused sample_db_fresh) as [Hreg Hlog].
  split; [exact Hreg|]. split.
  - destruct (Hlog (post [("email", "n@x.com"); ("password", "pw9")]) "pw9"
                eq_refl eq_refl eq_refl) as [Hok _].
    exact (proj1 (Hok eq_refl)).
  - destruct (Hlog (post [("email", "n@x.com"); ("password", "pw8")]) "pw8"
                eq_refl eq_refl eq_refl) as [_ Hbad].
    exact (proj1 (Hbad eq_refl)).
Defined.

(** The claim fails as stated: under a hash that pads with NUL as the
    library's do, the account registered with [pw9] is entered with a
    different password, [pw9] followed by NUL. *)
Lemma different_password_accepted :
  let req := post [("email", "n@x.com"); ("name", "Nora"); ("password", "pw9")] in
  let w1 := snd (serve (register hmac_generate_password_hash decimal_in) req
                       (world_of sample_db None)) in
  let r := serve (login hmac_check_password_hash)
                 (post [("email", "n@x.com"); ("password", pw9_nul)]) w1 in
  pw9_nul <> "pw9"
  /\ fst (serve (register hmac_generate_password_hash decimal_in) req
                (world_of sample_db None)) = Return (Redirect "login")
  /\ fst r = Return (Redirect "client_dashboard")
  /\ session_user (snd r) = Some 5.
Proof.
  cbn. repeat split. discriminate.
Qed.

Lemma user_by_email_found :
  forall e d u, In u (users d) -> email u = e ->
    exists u', user_by_email e d = Some u'.
Proof.
  intros e d u Hin He. destruct (user_by_email e d) as [u'|] eqn:E.
  - now exists u'.
  - exfalso. exact (proj1 (user_by_email_None e d) E u Hin He).
Qed.

(** C4. When a user with the email exists, a registration with that email
    answers with the redirect back to the registration page and the
    message 'Ese correo electrónico ya está registrado.'; the database is
    the one before the request, so the user table has no new row and the
    number of users with that email is what it was. *)
Theorem register_duplicate_email :
  forall gen int_in (w : World) (req : Request) (e n pw : string) (u : User),
    method req = POST ->
    form_lookup "email" (form req) = Some e ->
    form_lookup "name" (form req) = Some n ->
    form_lookup "password" (form req) = Some pw ->
    In u (users (db w)) ->
    email u = e ->
    fst (serve (register gen int_in) req w) = Return (Redirect "register")
    /\ flashes (snd (serve (register gen int_in) req w))
       = flashes w ++ [("Ese correo electrónico ya está registrado.", "error")]
    /\ db (snd (serve (register gen int_in) req w)) = db w
    /\ List.length (filter (fun x => String.eqb (email x) e)
                      (users (db (snd (serve (register gen int_in) req w)))))
       = List.length (filter (fun x => String.eqb (email x) e) (users (db w))).
Proof.
  intros gen int_in w req e n pw u Hm He Hn Hpw Hin Hu.
  destruct (user_by_email_found (db w) u Hin Hu) as [u' Hfound].
  unfold register. run. cbn. auto.
Qed.

Lemma register_duplicate_email_witness :
  let r := serve (register tag_generate_password_hash decimal_in)
             (post [("email", "c@x.com"); ("name", "Other"); ("password", "pw0")])
             (world_of sample_db None) in
  fst r = Return (Redirect "register") /\ db (snd r) = sample_db.
Proof.
  destruct (@register_duplicate_email tag_generate_password_hash decimal_in
              (world_of sample_db None)
              (post [("email", "c@x.com"); ("name", "Other"); ("password", "pw0")])
              "c@x.com" "Other" "pw0"
              (mkUser 2 "c@x.com" "tag$pw1" "Ana Gil" "client" (Some "X"))
              eq_refl eq_refl eq_refl eq_refl
              (or_intror (or_introl eq_refl)) eq_refl) as [H1 [_ [H3 _]]].
  split; [exact H1 | exact H3].
Defined.

(** ** C5: what is stored in [password] *)

Lemma insert_user_inr :
  forall e h n r emp d d',
    insert_user e (Some h) n r emp d = inr d' ->
    users d' = users d ++ [mkUser (users_seq d) e h n r emp]
    /\ projects d' = projects d.
Proof.
  unfold insert_user. intros e h n r emp d d' H.
  destruct (negb _); [discriminate|].
  destruct (_ || _); [discriminate|].
  injection H as <-. auto.
Qed.

(** One user object with its password set, added and committed. *)
Lemma commit_new_user_hashed :
  forall gen (Hne : forall s p, gen s p <> p) int_in s plain e n r emp d,
    match insert int_in (set_password gen s plain (NewUser e None n r emp)) d with
    | inl _ => True
    | inr d' => stored_hashed gen s plain d d'
    end.
Proof.
  intros gen Hne int_in s plain e n r emp d. cbn -[insert_user].
  destruct (insert_user _ _ _ _ _ _) as [x|d'] eqn:E; [exact I|].
  apply insert_user_inr in E. destruct E as [E _].
  right. eexists. split; [exact E|]. cbn. split; [reflexivity|apply Hne].
Qed.

Lemma register_stored_hashed :
  forall gen (Hne : forall s p, gen s p <> p) int_in (w : World) (req : Request),
    match form_lookup "password" (form req) with
    | Some pw => stored_hashed gen (salt req) pw (db w)
                   (db (snd (serve (register gen int_in) req w)))
    | None => users (db (snd (serve (register gen int_in) req w))) = users (db w)
    end.
Proof.
  intros gen Hne int_in w req.
  unfold register. unfold_view.
  destruct (method req);
    destruct (form_lookup "email" (form req)) as [e|];
    destruct (form_lookup "name" (form req)) as [n|];
    destruct (form_lookup "password" (form req)) as [pw|];
    cbn -[insert_user]; try solve [left; reflexivity | reflexivity].
  destruct (user_by_email _ _); cbn -[insert_user]; [left; reflexivity|].
  pose proof (@commit_new_user_hashed gen Hne int_in (salt req) pw e n "client"
                None (db w)) as H.
  cbn -[insert_user] in H.
  destruct (insert_user _ _ _ _ _ _); cbn; [left; reflexivity|exact H].
Qed.

Lemma create_client_stored_hashed :
  forall gen (Hne : forall s p, gen s p <> p) int_in (w : World) (req : Request),
    match form_lookup "password" (form req) with
    | Some pw => stored_hashed gen (salt req) pw (db w)
                   (db (snd (serve (create_client gen int_in) req w)))
    | None => users (db (snd (serve (create_client gen int_in) req w))) = users (db w)
    end.
Proof.
  intros gen Hne int_in w req.
  unfold create_client. unfold_view.
  destruct (form_lookup "nombre" (form req)) as [nombre|];
    destruct (form_lookup "apellido" (form req)) as [apellido|];
    destruct (form_lookup "email" (form req)) as [e|];
    destruct (form_lookup "password" (form req)) as [pw|];
    destruct (form_lookup "empresa" (form req)) as [emp|];
    cbn -[insert_user];
    (destruct (session_user w) as [uid|]; cbn -[insert_user];
       [destruct (user_get uid (db w)) as [cu|]; cbn -[insert_user];
          [destruct (String.eqb (role cu) "admin"); cbn -[insert_user]|]|]);
    try solve [left; reflexivity | reflexivity].
  destruct (user_by_email _ _); cbn -[insert_user]; [left; reflexivity|].
  pose proof (@commit_new_user_hashed gen Hne int_in (salt req) pw e
                (nombre ++ " " ++ apellido)%string "client" (Some emp) (db w)) as H.
  cbn -[insert_user String.append] in H.
  destruct (insert_user _ _ _ _ _ _); cbn; [left; reflexivity|exact H].
Qed.

Lemma boot_stored_hashed :
  forall gen (Hne : forall s p, gen s p <> p) int_in (w : World) (s : string),
    stored_hashed gen s "admin123" (db w) (db (snd (boot gen int_in s w))).
Proof.
  intros gen Hne int_in w s.
  unfold boot, seed_admin. unfold_view. cbn -[insert_user].
  destruct (user_by_email _ _); cbn -[insert_user]; [left; reflexivity|].
  pose proof (@commit_new_user_hashed gen Hne int_in s "admin123"
                "admin@consultoria.py" "Administrador" "admin"
                (Some "Consultoría PY") (db w)) as H.
  cbn -[insert_user] in H.
  destruct (insert_user _ _ _ _ _ _); cbn; [left; reflexivity|exact H].
Qed.

Lemma login_compares_by_hash :
  forall chk (w : World) (req : Request) (e pw : string) (u : User),
    method req = POST ->
    form_lookup "email" (form req) = Some e ->
    form_lookup "password" (form req) = Some pw ->
    user_by_email e (db w) = Some u ->
    (chk (password u) pw = true ->
       session_user (snd (serve (login chk) req w)) = Some (user_id u)
       /\ exists endpoint, fst (serve (login chk) req w) = Return (Redirect endpoint))
    /\ (chk (password u) pw = false ->
       session_user (snd (serve (login chk) req w)) = session_user w
       /\ fst (serve (login chk) req w) = Return (RenderTemplate "login.html" NoContext)).
Proof.
  intros chk w req e pw u Hm He Hpw Hu. split; intro Hc.
  - unfold login. run. unfold check_password. rewrite Hc. cbn.
    destruct (String.eqb (role u) "admin"); cbn; eauto.
  - unfold login. run. unfold check_password. rewrite Hc. cbn. auto.
Qed.

(** C5. With a hash library whose hash of a password is never that
    password: every request to [register] or [create_client], and the
    start-up seeding, leaves the user table as it was or adds one row
    whose [password] field is [generate_password_hash] of the submitted
    plaintext (of ['admin123'] for the seeded account), never the
    plaintext; and [login] decides by [check_password_hash] on the stored
    hash and the submitted password, not by comparing the two texts.
    That the hash is one-way and salted is a property of the library. *)
Theorem passwords_stored_hashed :
  forall gen chk int_in,
    (forall s p, gen s p <> p) ->
    (forall (w : World) (req : Request),
        match form_lookup "password" (form req) with
        | Some pw => stored_hashed gen (salt req) pw (db w)
                       (db (snd (serve (register gen int_in) req w)))
        | None => users (db (snd (serve (register gen int_in) req w))) = users (db w)
        end)
    /\ (forall (w : World) (req : Request),
        match form_lookup "password" (form req) with
        | Some pw => stored_hashed gen (salt req) pw (db w)
                       (db (snd (serve (create_client gen int_in) req w)))
        | None => users (db (snd (serve (create_client gen int_in) req w)))
                  = users (db w)
        end)
    /\ (forall (w : World) (s : string),
        stored_hashed gen s "admin123" (db w) (db (snd (boot gen int_in s w))))
    /\ (forall (w : World) (req : Request) (e pw : string) (u : User),
        method req = POST ->
        form_lookup "email" (form req) = Some e ->
        form_lookup "password" (form req) = Some pw ->
        user_by_email e (db w) = Some u ->
        (chk (password u) pw = true ->
           session_user (snd (serve (login chk) req w)) = Some (user_id u)
           /\ exists endpoint,
                fst (serve (login chk) req w) = Return (Redirect endpoint))
        /\ (chk (password u) pw = false ->
           session_user (snd (serve (login chk) req w)) = session_user w
           /\ fst (serve (login chk) req w)
              = Return (RenderTemplate "login.html" NoContext))).
Proof.
  intros gen chk int_in Hne. split; [|split; [|split]].
  - intros w req. now apply register_stored_hashed.
  - intros w req. now apply create_client_stored_hashed.
  - intros w s. now apply boot_stored_hashed.
  - intros w req e pw u Hm He Hpw Hu.
    exact (login_compares_by_hash chk w req Hm He Hpw Hu).
Qed.

Lemma tag_hash_not_plain : forall s p, tag_generate_password_hash s p <> p.
Proof.
  intros s p H. apply (f_equal String.length) in H.
  unfold tag_generate_password_hash in H. cbn in H. lia.
Qed.

Lemma passwords_stored_hashed_witness :
  exists nu,
    users (db (snd (serve (register tag_generate_password_hash decimal_in)
                      (post [("email", "n@x.com"); ("name", "Nora"); ("password", "pw9")])
                      (world_of sample_db None))))
    = users sample_db ++ [nu]
    /\ password nu = "tag$pw9"
    /\ password nu <> "pw9".
Proof.
  destruct (proj1 (@passwords_stored_hashed tag_generate_password_hash
                     tag_check_password_hash decimal_in tag_hash_not_plain)
              (world_of sample_db None)
              (post [("email", "n@x.com"); ("name", "Nora"); ("password", "pw9")]))
    as [Hsame | [nu Hnu]].
  - discriminate Hsame.
  - exists nu. exact Hnu.
Defined.

(** ** C6, C7, C10: the gate in front of the private routes *)

(** C6. A request to [/dashboard] or [/admin] whose session names no user
    (no [_user_id], or an id no row has) is answered with the redirect to
    the login page and the login message; the response carries no
    context, the request issues no read of project rows or of the client
    list, and the database is as before. *)
Theorem anonymous_redirected_to_login :
  forall (w : World) (req : Request),
    authenticated w = None ->
    (fst (serve client_dashboard req w) = Return (Redirect "login")
     /\ no_data_query (trace (snd (serve client_dashboard req w))) = true
     /\ flashes (snd (serve client_dashboard req w))
        = flashes w ++ [(login_message, "message")]
     /\ db (snd (serve client_dashboard req w)) = db w)
    /\ (fst (serve admin_dashboard req w) = Return (Redirect "login")
     /\ no_data_query (trace (snd (serve admin_dashboard req w))) = true
     /\ flashes (snd (serve admin_dashboard req w))
        = flashes w ++ [(login_message, "message")]
     /\ db (snd (serve admin_dashboard req w)) = db w).
Proof.
  intros w req Hau. unfold authenticated in Hau.
  unfold client_dashboard, admin_dashboard.
  destruct (session_user w) as [uid|] eqn:Hs; run; cbn; auto 10.
Qed.

Lemma anonymous_redirected_to_login_witness :
  fst (serve client_dashboard get (world_of sample_db None)) = Return (Redirect "login")
  /\ fst (serve admin_dashboard get (world_of sample_db (Some 77)))
     = Return (Redirect "login")
  /\ trace (snd (serve admin_dashboard get (world_of sample_db (Some 77))))
     = [QUserGet 77].
Proof.
  split; [|split].
  - exact (proj1 (proj1 (@anonymous_redirected_to_login (world_of sample_db None) get
                           eq_refl))).
  - exact (proj1 (proj2 (@anonymous_redirected_to_login (world_of sample_db (Some 77))
                           get eq_refl))).
  - reflexivity.
Defined.

(** C10. A user whose role is neither 'client' nor 'admin' is refused by
    both dashboards: each answers with the redirect to the index page and
    the message 'Acceso no autorizado.', after no other read than the
    loading of the user. *)
Theorem third_role_sees_no_dashboard :
  forall (w : World) (req : Request) (u : User),
    authenticated w = Some u ->
    role u <> "client" ->
    role u <> "admin" ->
    (fst (serve client_dashboard req w) = Return (Redirect "index")
     /\ trace (snd (serve client_dashboard req w)) = [QUserGet (user_id u)]
     /\ no_data_query (trace (snd (serve client_dashboard req w))) = true
     /\ flashes (snd (serve client_dashboard req w))
        = flashes w ++ [("Acceso no autorizado.", "error")])
    /\ (fst (serve admin_dashboard req w) = Return (Redirect "index")
     /\ trace (snd (serve admin_dashboard req w)) = [QUserGet (user_id u)]
     /\ no_data_query (trace (snd (serve admin_dashboard req w))) = true
     /\ flashes (snd (serve admin_dashboard req w))
        = flashes w ++ [("Acceso no autorizado.", "error")]).
Proof.
  intros w req u Hau Hc Ha.
  apply authenticated_inv in Hau. destruct Hau as [Hs Hg].
  apply String.eqb_neq in Hc. apply String.eqb_neq in Ha.
  unfold client_dashboard, admin_dashboard. run. cbn. auto 10.
Qed.

Lemma third_role_sees_no_dashboard_witness :
  fst (serve client_dashboard get (world_of sample_db (Some 4)))
    = Return (Redirect "index")
  /\ fst (serve admin_dashboard get (world_of sample_db (Some 4)))
     = Return (Redirect "index").
Proof.
  assert (Hc : "guest" <> "client") by discriminate.
  assert (Ha : "guest" <> "admin") by discriminate.
  destruct (@third_role_sees_no_dashboard (world_of sample_db (Some 4)) get
              (mkUser 4 "e@z.com" "tag$pw3" "Eva" "guest" None) eq_refl Hc Ha)
    as [[H1 _] [H2 _]].
  split; [exact H1 | exact H2].
Defined.

(** What the four role checks answer when the role is not the required
    one: the two dashboards flash a message, the two creation routes do
    not. *)
Lemma role_mismatch_responses :
  forall gen int_in wd (w : World) (req : Request) (u : User),
    authenticated w = Some u ->
    (role u <> "client" ->
       fst (serve client_dashboard req w) = Return (Redirect "index")
       /\ flashes (snd (serve client_dashboard req w))
          = flashes w ++ [("Acceso no autorizado.", "error")])
    /\ (role u <> "admin" ->
       (fst (serve admin_dashboard req w) = Return (Redirect "index")
        /\ flashes (snd (serve admin_dashboard req w))
           = flashes w ++ [("Acceso no autorizado.", "error")])
       /\ (fst (serve (create_client gen int_in) req w) = Return (Redirect "index")
        /\ flashes (snd (serve (create_client gen int_in) req w)) = flashes w)
       /\ (fst (serve (create_project int_in wd) req w) = Return (Redirect "index")
        /\ flashes (snd (serve (create_project int_in wd) req w)) = flashes w)).
Proof.
  intros gen int_in wd w req u Hau.
  apply authenticated_inv in Hau. destruct Hau as [Hs Hg].
  split; intro Hr; apply String.eqb_neq in Hr;
    unfold client_dashboard, admin_dashboard, create_client, create_project;
    run; cbn; auto 10.
Qed.

(** C7, at a client session posting to the two admin-only creation
    routes: each answers with the redirect to the index page and flashes
    nothing, where the dashboards flash 'Acceso no autorizado.'. *)
Theorem creation_routes_refuse_without_message :
  (let r := serve (create_client tag_generate_password_hash decimal_in)
              (post [("nombre", "Ana"); ("apellido", "Gil"); ("email", "z@z.com");
                     ("password", "pw"); ("empresa", "Z")])
              (world_of sample_db (Some 2)) in
   fst r = Return (Redirect "index") /\ flashes (snd r) = [] /\ db (snd r) = sample_db)
  /\
  (let r := serve (create_project decimal_in two_scripts)
              (post [("project_name", "P"); ("status", "Pendiente");
                     ("start_date", "2024-03-15"); ("client_id", "2")])
              (world_of sample_db (Some 2)) in
   fst r = Return (Redirect "index") /\ flashes (snd r) = [] /\ db (snd r) = sample_db)
  /\
  (let r := serve admin_dashboard get (world_of sample_db (Some 2)) in
   fst r = Return (Redirect "index")
   /\ flashes (snd r) = [("Acceso no autorizado.", "error")]).
Proof.
  cbn. repeat split.
Qed.

(** ** C9 *)

(** C9. A login with an email no user has and a login with the email of
    a user and a password the hash check refuses get the same answer: the
    login page re-rendered, the message 'Correo o contraseña incorrectos.'
    added to the flashed messages, and session and database untouched. *)
Theorem login_failures_look_alike :
  forall chk (w : World) (req1 req2 : Request) (e1 pw1 e2 pw2 : string) (u : User),
    method req1 = POST ->
    form_lookup "email" (form req1) = Some e1 ->
    form_lookup "password" (form req1) = Some pw1 ->
    method req2 = POST ->
    form_lookup "email" (form req2) = Some e2 ->
    form_lookup "password" (form req2) = Some pw2 ->
    user_by_email e1 (db w) = None ->
    user_by_email e2 (db w) = Some u ->
    chk (password u) pw2 = false ->
    let r1 := serve (login chk) req1 w in
    let r2 := serve (login chk) req2 w in
    fst r1 = fst r2
    /\ fst r1 = Return (RenderTemplate "login.html" NoContext)
    /\ flashes (snd r1) = flashes (snd r2)
    /\ flashes (snd r1) = flashes w ++ [("Correo o contraseña incorrectos.", "error")]
    /\ session_user (snd r1) = session_user (snd r2)
    /\ session_user (snd r1) = session_user w
    /\ db (snd r1) = db (snd r2)
    /\ db (snd r1) = db w.
Proof.
  intros chk w req1 req2 e1 pw1 e2 pw2 u Hm1 He1 Hp1 Hm2 He2 Hp2 Hnone Hsome Hchk r1 r2.
  subst r1 r2. unfold login, check_password. run. cbn. auto 10.
Qed.

Lemma login_failures_look_alike_witness :
  serve (login tag_check_password_hash)
        (post [("email", "nobody@x.com"); ("password", "pw1")])
        (world_of sample_db None)
  = (Return (RenderTemplate "login.html" NoContext),
     mkWorld sample_db [] None [("Correo o contraseña incorrectos.", "error")]
             [QUserByEmail "nobody@x.com"])
  /\ fst (serve (login tag_check_password_hash)
                (post [("email", "nobody@x.com"); ("password", "pw1")])
                (world_of sample_db None))
     = fst (serve (login tag_check_password_hash)
                  (post [("email", "c@x.com"); ("password", "pw2")])
                  (world_of sample_db None)).
Proof.
  split; [reflexivity|].
  exact (proj1 (@login_failures_look_alike tag_check_password_hash
                  (world_of sample_db None)
                  (post [("email", "nobody@x.com"); ("password", "pw1")])
                  (post [("email", "c@x.com"); ("password", "pw2")])
                  "nobody@x.com" "pw1" "c@x.com" "pw2"
                  (mkUser 2 "c@x.com" "tag$pw1" "Ana Gil" "client" (Some "X"))
                  eq_refl eq_refl eq_refl eq_refl eq_refl eq_refl
                  eq_refl eq_refl eq_refl)).
Defined.

(** ** C8: the admin dashboard *)

Ltac compare_all :=
  repeat match goal with
         | |- context [?a <? ?b] => destruct (Z.ltb_spec a b)
         | |- context [?a =? ?b] => destruct (Z.eqb_spec a b)
         | |- context [?a <=? ?b] => destruct (Z.leb_spec a b)
         | H : context [?a <? ?b] |- _ => destruct (Z.ltb_spec a b)
         | H : context [?a =? ?b] |- _ => destruct (Z.eqb_spec a b)
         | H : context [?a <=? ?b] |- _ => destruct (Z.leb_spec a b)
         end.

Lemma date_leb_total : forall a b, date_leb a b = false -> date_leb b a = true.
Proof.
  intros [y1 m1 d1] [y2 m2 d2]. unfold date_leb. cbn. intro H.
  compare_all; cbn in *; try reflexivity; try discriminate; lia.
Qed.

Lemma date_leb_trans :
  forall a b c, date_leb a b = true -> date_leb b c = true -> date_leb a c = true.
Proof.
  intros [y1 m1 d1] [y2 m2 d2] [y3 m3 d3]. unfold date_leb. cbn. intros H1 H2.
  compare_all; cbn in *; try reflexivity; try discriminate; lia.
Qed.

Lemma desc_geb_total : forall x y, desc_geb x y = false -> desc_geb y x = true.
Proof.
  intros [a|] [b|]; cbn; intro H; try reflexivity; try discriminate.
  now apply date_leb_total.
Qed.

Lemma desc_geb_trans :
  forall x y z, desc_geb x y = true -> desc_geb y z = true -> desc_geb x z = true.
Proof.
  intros [a|] [b|] [c|]; cbn; intros H1 H2; try reflexivity; try discriminate.
  eapply date_leb_trans; eauto.
Qed.

Lemma insert_desc_perm : forall p l, Permutation (insert_desc p l) (p :: l).
Proof.
  intros p l. induction l as [|q l IH]; cbn.
  - apply Permutation_refl.
  - destruct (desc_geb (start_date p) (start_date q)).
    + apply Permutation_refl.
    + eapply perm_trans; [apply perm_skip, IH | apply perm_swap].
Qed.

Lemma insert_desc_sorted :
  forall p l, StronglySorted desc_order l -> StronglySorted desc_order (insert_desc p l).
Proof.
  intros p l Hl. induction Hl as [|q l Hl IH Hq]; cbn.
  - constructor; constructor.
  - destruct (desc_geb (start_date p) (start_date q)) eqn:E.
    + constructor.
      * now constructor.
      * constructor; [exact E|].
        eapply Forall_impl; [|exact Hq].
        intros r Hr. unfold desc_order in *. eapply desc_geb_trans; eauto.
    + constructor; [exact IH|].
      apply (Permutation_Forall (Permutation_sym (insert_desc_perm p l))).
      constructor; [|exact Hq].
      unfold desc_order. now apply desc_geb_total.
Qed.

Lemma order_by_perm :
  forall d, Permutation (projects_by_start_date_desc d) (projects d).
Proof.
  intro d. unfold projects_by_start_date_desc.
  induction (projects d) as [|p l IH]; cbn.
  - apply Permutation_refl.
  - eapply perm_trans; [apply insert_desc_perm | now apply perm_skip].
Qed.

Lemma order_by_sorted :
  forall d, StronglySorted desc_order (projects_by_start_date_desc d).
Proof.
  intro d. unfold projects_by_start_date_desc.
  induction (projects d) as [|p l IH]; cbn.
  - constructor.
  - now apply insert_desc_sorted.
Qed.

Lemma sorted_nulls_first :
  forall l, StronglySorted desc_order l -> nulls_first l = true.
Proof.
  intros l Hl. induction Hl as [|p l Hl IH Hp]; cbn; [reflexivity|].
  unfold has_date at 1. destruct (start_date p) as [a|] eqn:E; [|exact IH].
  apply forallb_forall. intros q Hq.
  rewrite Forall_forall in Hp. specialize (Hp q Hq).
  unfold desc_order in Hp. rewrite E in Hp. unfold has_date.
  destruct (start_date q); [reflexivity|discriminate Hp].
Qed.

(** C8, as the code has it.  For an admin session the admin dashboard is
    rendered with the users whose role is 'client' and with all the
    projects: each stored row once, a row standing before another only if
    it has no start date or both have one and its date is not the
    earlier.  The rows without a start date come first, as the store the
    program is configured for sorts nulls under [DESC]. *)
Theorem admin_dashboard_lists :
  forall (w : World) (req : Request) (u : User),
    authenticated w = Some u ->
    role u = "admin" ->
    exists clients all_projects,
      fst (serve admin_dashboard req w)
        = Return (RenderTemplate "admin.html" (AdminContext clients all_projects))
      /\ clients = filter (fun x => String.eqb (role x) "client") (users (db w))
      /\ (forall x, In x clients <-> In x (users (db w)) /\ role x = "client")
      /\ Permutation all_projects (projects (db w))
      /\ StronglySorted desc_order all_projects
      /\ nulls_first all_projects = true.
Proof.
  intros w req u Hau Hrole.
  apply authenticated_inv in Hau. destruct Hau as [Hs Hg].
  exists (users_by_role "client" (db w)), (projects_by_start_date_desc (db w)).
  split; [|split; [|split; [|split; [|split]]]].
  - unfold admin_dashboard. run. reflexivity.
  - reflexivity.
  - intro x. unfold users_by_role. rewrite filter_In, String.eqb_eq. tauto.
  - apply order_by_perm.
  - apply order_by_sorted.
  - apply sorted_nulls_first, order_by_sorted.
Qed.

(** The claim fails as stated: with a project without a start date among
    dated ones, the list the dashboard shows starts with it. *)
Lemma admin_dashboard_nulls_not_last :
  fst (serve admin_dashboard get (world_of sample_db (Some 1)))
  = Return (RenderTemplate "admin.html"
      (AdminContext
         [ mkUser 2 "c@x.com" "tag$pw1" "Ana Gil" "client" (Some "X");
           mkUser 3 "d@y.com" "tag$pw2" "Luis Paz" "client" None ]
         [ mkProject 2 "Audit" "En Progreso" None 3;
           mkProject 3 "Migration" "Completado" (Some (mkDate 2024 6 30)) 2;
           mkProject 1 "Website Redesign" "Pendiente" (Some (mkDate 2024 1 1)) 2;
           mkProject 4 "Training" "Pendiente" (Some (mkDate 2023 11 5)) 3 ]))
  /\ nulls_last
       [ mkProject 2 "Audit" "En Progreso" None 3;
         mkProject 3 "Migration" "Completado" (Some (mkDate 2024 6 30)) 2;
         mkProject 1 "Website Redesign" "Pendiente" (Some (mkDate 2024 1 1)) 2;
         mkProject 4 "Training" "Pendiente" (Some (mkDate 2023 11 5)) 3 ] = false.
Proof.
  split; reflexivity.
Qed.

Lemma admin_dashboard_lists_witness :
  exists clients all_projects,
    fst (serve admin_dashboard get (world_of sample_db (Some 1)))
      = Return (RenderTemplate "admin.html" (AdminContext clients all_projects))
    /\ Permutation all_projects (projects sample_db)
    /\ nulls_first all_projects = true.
Proof.
  destruct (@admin_dashboard_lists (world_of sample_db (Some 1)) get
              (mkUser 1 "admin@consultoria.py" "tag$admin123" "Administrador" "admin"
                      (Some "Consultoría PY")) eq_refl eq_refl)
    as [clients [all_projects [H1 [_ [_ [H4 [_ H6]]]]]]].
  exists clients, all_projects. auto.
Defined.

(** ** The date format on examples *)

Example strptime_iso : strptime_Ymd two_scripts "2024-03-15" = Some (mkDate 2024 3 15).
Proof. reflexivity. Qed.

Example strptime_short_fields : strptime_Ymd two_scripts "2024-3-5" = Some (mkDate 2024 3 5).
Proof. reflexivity. Qed.

Example strptime_leap_day : strptime_Ymd two_scripts "2024-02-29" = Some (mkDate 2024 2 29).
Proof. reflexivity. Qed.

Example strptime_no_such_day : strptime_Ymd two_scripts "2023-02-29" = None.
Proof. reflexivity. Qed.

Example strptime_no_such_month : strptime_Ymd two_scripts "2024-13-05" = None.
Proof. reflexivity. Qed.

Example strptime_text_remains : strptime_Ymd two_scripts "2024-03-15 10:00" = None.
Proof. reflexivity. Qed.

Example strptime_other_format : strptime_Ymd two_scripts "15/03/2024" = None.
Proof. reflexivity. Qed.

Example strptime_empty : strptime_Ymd two_scripts "" = None.
Proof. reflexivity. Qed.

Example strptime_arabic_indic_year :
  strptime_Ymd two_scripts "٢٠٢٤-03-15" = Some (mkDate 2024 3 15).
Proof. reflexivity. Qed.

Example strptime_fullwidth_day :
  strptime_Ymd two_scripts "2024-03-1５" = Some (mkDate 2024 3 15).
Proof. reflexivity. Qed.

Example strptime_wide_month_refused : strptime_Ymd two_scripts "2024-٠٣-15" = None.
Proof. reflexivity. Qed.

Example char_length_counts_characters :
  char_length "contraseña" = 10%nat /\ String.length "contraseña" = 11%nat.
Proof. split; reflexivity. Qed.

(** ** The store keeps its constraints *)

Lemma insert_project_inr :
  forall int_in n st sd cid d d',
    insert_project int_in n st sd cid d = inr d' ->
    exists c, int_in cid = Some c
      /\ users d' = users d
      /\ projects d' = projects d ++ [mkProject (projects_seq d) n st sd c]
      /\ existsb (fun u => user_id u =? c) (users d) = true.
Proof.
  unfold insert_project. intros int_in n st sd cid d d' H.
  destruct (int_in cid) as [c|]; [|discriminate].
  destruct (negb (fits 200 n && fits 50 st)); [discriminate|].
  destruct (existsb (fun p => project_id p =? projects_seq d) (projects d));
    [discriminate|].
  destruct (existsb (fun u => user_id u =? c) (users d)) eqn:E; [|discriminate].
  cbn in H. injection H as <-. exists c. auto.
Qed.

(** The foreign key and the uniqueness of emails are kept by every
    write the store accepts. *)
Lemma insert_keeps_constraints :
  forall int_in o d d',
    insert int_in o d = inr d' ->
    references_hold d -> NoDup (map email (users d)) ->
    references_hold d' /\ NoDup (map email (users d')).
Proof.
  intros int_in [e [h|] n r emp | n st sd cid] d d' H Href Hnd; cbn in H;
    try discriminate.
  - pose proof H as H'. apply insert_user_inr in H'. destruct H' as [Hu Hp].
    unfold insert_user in H.
    destruct (negb _); [discriminate|].
    destruct (existsb (fun u => user_id u =? users_seq d) (users d)); [discriminate|].
    destruct (existsb (fun u => String.eqb (email u) e) (users d)) eqn:E;
      [discriminate|]. clear H.
    split.
    + intros p Hin. rewrite Hp in Hin. destruct (Href p Hin) as [u [Hu1 Hu2]].
      exists u. rewrite Hu, in_app_iff. auto.
    + rewrite Hu, map_app. cbn.
      apply NoDup_incl_NoDup with (l := e :: map email (users d)).
      * constructor; [|exact Hnd]. intro Hin. apply in_map_iff in Hin.
        destruct Hin as [u [Hue Hui]].
        assert (existsb (fun u => String.eqb (email u) e) (users d) = true).
        { apply existsb_exists. exists u. split; [assumption|].
          now apply String.eqb_eq. }
        congruence.
      * rewrite length_app. cbn. lia.
      * intros x Hx. apply in_app_iff. cbn in *. tauto.
  - apply insert_project_inr in H. destruct H as [c [Hc [Hu [Hp Hex]]]].
    split; [|now rewrite Hu].
    intros p Hin. rewrite Hp, in_app_iff in Hin. rewrite Hu.
    destruct Hin as [Hin|[<-|[]]]; [now apply Href|].
    apply existsb_exists in Hex. destruct Hex as [u [Hui Hue]].
    exists u. split; [assumption|]. now apply Z.eqb_eq in Hue.
Qed.

(** The sequences stay ahead of the keys: [fresh_keys] holds of the empty
    database and is kept by every write the store accepts. *)
Lemma empty_db_fresh : fresh_keys (mkDB [] [] 1 1).
Proof. split; intros x []. Qed.

Lemma insert_keeps_fresh_keys :
  forall int_in o d d',
    insert int_in o d = inr d' -> fresh_keys d -> fresh_keys d'.
Proof.
  intros int_in [e [h|] n r emp | n st sd cid] d d' H [Hu Hp]; cbn in H;
    try discriminate.
  - unfold insert_user in H.
    destruct (negb _); [discriminate|].
    destruct (_ || _); [discriminate|].
    injection H as <-. split; cbn; [|exact Hp].
    intros u Hin. apply in_app_iff in Hin.
    destruct Hin as [Hin|[<-|[]]]; [specialize (Hu u Hin)|cbn]; lia.
  - unfold insert_project in H.
    destruct (int_in cid) as [c|]; [|discriminate].
    destruct (negb _); [discriminate|].
    destruct (_ || _); [discriminate|].
    injection H as <-. split; cbn; [exact Hu|].
    intros p Hin. apply in_app_iff in Hin.
    destruct Hin as [Hin|[<-|[]]]; [specialize (Hp p Hin)|cbn]; lia.
Qed.

Lemma flush_keeps_fresh_keys :
  forall int_in d0 os d d',
    flush int_in d0 os d = inr d' -> fresh_keys d -> fresh_keys d'.
Proof.
  intros int_in d0 os. induction os as [|o os IH]; cbn; intros d d' H Hf.
  - now injection H as <-.
  - destruct (insert int_in o d) as [x|d1] eqn:E; [discriminate|].
    eapply IH; [exact H|]. eapply insert_keeps_fresh_keys; eauto.
Qed.

(* ================================================================== *)
(** * Properties of the routes together *)

(** Case analysis along a view function: every test the code makes is
    split, in whatever order the tests show up. *)
Ltac crack_step :=
  match goal with
  | |- context [method ?r] => destruct (method r) eqn:?
  | |- context [form_lookup ?k (form ?r)] =>
      destruct (form_lookup k (form r)) eqn:?
  | |- context [session_user ?w] => is_var w; destruct (session_user w) eqn:?
  | |- context [user_get ?i ?d] => destruct (user_get i d) eqn:?
  | |- context [user_by_email ?e ?d] => destruct (user_by_email e d) eqn:?
  | |- context [String.eqb (role ?u) ?s] => destruct (String.eqb (role u) s) eqn:?
  | |- context [strptime_Ymd ?t ?s] => destruct (strptime_Ymd t s) eqn:?
  | |- context [check_password ?c ?u ?p] => destruct (check_password c u p) eqn:?
  | |- context [insert_user ?e ?pw ?n ?r ?emp ?d] =>
      destruct (insert_user e pw n r emp d) eqn:?
  | |- context [insert_project ?i ?n ?st ?sd ?cid ?d] =>
      destruct (insert_project i n st sd cid d) eqn:?
  end.

Ltac tidy :=
  cbn -[insert_user insert_project check_password authenticated
        String.append user_by_email user_get users_by_role
        projects_by_client projects_by_start_date_desc strptime_Ymd
        form_lookup refused] in *.

(** Along one path: rewrite with the facts at hand and compute. *)
Ltac go := repeat (use_eqs; tidy).

Ltac crack := repeat (tidy; crack_step); tidy.

(** The object the store accepted in the case at hand. *)
Ltac written :=
  match goal with
  | H : insert_user ?e ?pw ?n ?r ?emp _ = inr _ |- _ => exists (NewUser e pw n r emp)
  | H : insert_project _ ?n ?st ?sd ?cid _ = inr _ |- _ =>
      exists (NewProject n st sd cid)
  end.

Ltac open_route :=
  unfold after, respond, view_function, index, login, register, logout,
    client_dashboard, admin_dashboard, create_client, create_project;
  unfold_view.

Lemma authenticated_intro :
  forall w uid u,
    session_user w = Some uid -> user_get uid (db w) = Some u ->
    authenticated w = Some u.
Proof. intros w uid u Hs Hg. unfold authenticated. now rewrite Hs. Qed.

Lemma admin_session_intro :
  forall w uid u,
    session_user w = Some uid -> user_get uid (db w) = Some u ->
    String.eqb (role u) "admin" = true ->
    admin_session w.
Proof.
  intros w uid u Hs Hg Hr. exists u. split.
  - eapply authenticated_intro; eauto.
  - now apply String.eqb_eq.
Qed.

Lemma same_rows_refl : forall d, same_rows d d.
Proof. intro d. unfold same_rows. repeat split; lia. Qed.

Lemma same_rows_refused :
  forall o e d,
    same_rows d (mkDB (users d) (projects d)
                      (users_seq (refused o e d)) (projects_seq (refused o e d))).
Proof.
  intros o e d. unfold same_rows.
  destruct e, o; cbn; repeat split; lia.
Qed.

Section RouteProperties.

Variable gen : string -> string -> string.
Variable chk : string -> string -> bool.
Variable int_in : string -> option Z.
Variable wd : list ascii -> option (Z * list ascii).

(** Every route leaves the rows as they were or hands the store one
    object it accepts, and only an object the route may write. *)
Lemma route_writes :
  forall (ep : Endpoint) (req : Request) (w : World),
    same_rows (db w) (db (after gen chk int_in wd ep req w))
    \/ exists o, write_allowed gen wd ep req w o
                 /\ insert int_in o (db w) = inr (db (after gen chk int_in wd ep req w)).
Proof.
  intros ep req w. destruct ep; open_route; crack;
    try solve [left; first [apply same_rows_refl | apply same_rows_refused]].
  all: right; written; (split; [|tidy; assumption]).
  all: cbn; repeat split; eauto 6 using admin_session_intro.
Qed.

Lemma insert_accepted_rows :
  forall o d d',
    insert int_in o d = inr d' ->
    match o with
    | NewUser e pw n r emp =>
        exists h, pw = Some h
          /\ users d' = users d ++ [mkUser (users_seq d) e h n r emp]
          /\ projects d' = projects d
    | NewProject n st sd cid =>
        exists c, int_in cid = Some c
          /\ users d' = users d
          /\ projects d' = projects d ++ [mkProject (projects_seq d) n st sd c]
    end.
Proof.
  intros [e [h|] n r emp | n st sd cid] d d' H; cbn in H; try discriminate.
  - apply insert_user_inr in H. exists h. tauto.
  - apply insert_project_inr in H. destruct H as [c H]. exists c. tauto.
Qed.

(** X1. No route updates or deletes: after any request both tables start
    with the rows they had, in the same order, and at most one row has
    been added in all. *)
Theorem rows_only_appended :
  forall (ep : Endpoint) (req : Request) (w : World),
    exists us ps,
      users (db (after gen chk int_in wd ep req w)) = users (db w) ++ us
      /\ projects (db (after gen chk int_in wd ep req w)) = projects (db w) ++ ps
      /\ (List.length us + List.length ps <= 1)%nat.
Proof.
  intros ep req w.
  destruct (route_writes ep req w) as [[Hsu [Hsp _]] | [o [_ Hins]]].
  - exists [], []. rewrite Hsu, Hsp, !app_nil_r. cbn. auto.
  - apply insert_accepted_rows in Hins.
    destruct o as [e pw n r emp | n st sd cid].
    + destruct Hins as [h [_ [Hu Hp]]].
      exists [mkUser (users_seq (db w)) e h n r emp], [].
      rewrite Hu, Hp, app_nil_r. cbn. auto.
    + destruct Hins as [c [_ [Hu Hp]]].
      exists [], [mkProject (projects_seq (db w)) n st sd c].
      rewrite Hu, Hp, app_nil_r. cbn. auto.
Qed.

(** X2. A write needs authority: the user table changes only through
    [register] or through [create_client] under an admin session, the
    project table only through [create_project] under an admin session. *)
Theorem writes_need_authority :
  forall (ep : Endpoint) (req : Request) (w : World),
    (users (db (after gen chk int_in wd ep req w)) <> users (db w) ->
       ep = Register \/ (ep = CreateClient /\ admin_session w))
    /\ (projects (db (after gen chk int_in wd ep req w)) <> projects (db w) ->
       ep = CreateProject /\ admin_session w).
Proof.
  intros ep req w.
  destruct (route_writes ep req w) as [[Hsu [Hsp _]] | [o [Hok Hins]]].
  - rewrite Hsu, Hsp. split; intro H; now contradiction H.
  - apply insert_accepted_rows in Hins.
    destruct o as [e pw n r emp | n st sd cid]; cbn in Hok.
    + destruct Hins as [h [_ [_ Hp]]]. split; [tauto|].
      intro H. now contradiction H.
    + destruct Hins as [c [_ [Hu _]]]. split; [|tauto].
      intro H. now contradiction H.
Qed.

(** X3. No route makes an administrator: a user a request adds has role
    'client' and the email of the form. *)
Theorem new_users_are_clients :
  forall (ep : Endpoint) (req : Request) (w : World),
    users (db (after gen chk int_in wd ep req w)) = users (db w)
    \/ exists u, users (db (after gen chk int_in wd ep req w)) = users (db w) ++ [u]
                 /\ role u = "client"
                 /\ form_lookup "email" (form req) = Some (email u).
Proof.
  intros ep req w.
  destruct (route_writes ep req w) as [[Hsu [Hsp _]] | [o [Hok Hins]]].
  - left. assumption.
  - apply insert_accepted_rows in Hins.
    destruct o as [e pw n r emp | n st sd cid]; cbn in Hok.
    + destruct Hins as [h [_ [Hu _]]]. right.
      exists (mkUser (users_seq (db w)) e h n r emp). cbn. tauto.
    + destruct Hins as [c [_ [Hu _]]]. now left.
Qed.

Lemma make_date_real : forall y m d x, make_date y m d = Some x -> real_date x.
Proof.
  unfold make_date, real_date. intros y m d x H.
  destruct (_ && _) eqn:E; [|discriminate]. injection H as <-. cbn.
  repeat (apply andb_prop in E; destruct E as [E ?]).
  repeat match goal with H : (_ <=? _) = true |- _ => apply Z.leb_le in H end.
  lia.
Qed.

Lemma strptime_real : forall s d, strptime_Ymd wd s = Some d -> real_date d.
Proof.
  unfold strptime_Ymd. intros s d H.
  destruct (re_Ymd _) as [|[[[y m] dd] [|c r]] l]; try discriminate.
  eapply make_date_real; eauto.
Qed.

(** X4. A project a request adds has a start date, and it is a date of the
    calendar: the routes never store a project without one. *)
Theorem stored_dates_are_real :
  forall (ep : Endpoint) (req : Request) (w : World),
    projects (db (after gen chk int_in wd ep req w)) = projects (db w)
    \/ exists p d, projects (db (after gen chk int_in wd ep req w)) = projects (db w) ++ [p]
                   /\ start_date p = Some d /\ real_date d.
Proof.
  intros ep req w.
  destruct (route_writes ep req w) as [[Hsu [Hsp _]] | [o [Hok Hins]]].
  - left. assumption.
  - apply insert_accepted_rows in Hins.
    destruct o as [e pw n r emp | n st sd cid]; cbn in Hok.
    + destruct Hins as [h [_ [_ Hp]]]. now left.
    + destruct Hins as [c [_ [_ Hp]]]. right.
      destruct Hok as [_ [_ [_ [s [d [_ [Hd ->]]]]]]].
      exists (mkProject (projects_seq (db w)) n st (Some d) c), d.
      cbn. split; [assumption|]. split; [reflexivity|].
      eapply strptime_real; eauto.
Qed.

(** X5. The constraints of the schema are invariants of the application:
    keys below their sequences, one user per email, every project owned
    by a stored user. *)
Theorem every_route_keeps_constraints :
  forall (ep : Endpoint) (req : Request) (w : World),
    fresh_keys (db w) ->
    references_hold (db w) ->
    NoDup (map email (users (db w))) ->
    fresh_keys (db (after gen chk int_in wd ep req w))
    /\ references_hold (db (after gen chk int_in wd ep req w))
    /\ NoDup (map email (users (db (after gen chk int_in wd ep req w)))).
Proof.
  intros ep req w Hf Hr Hn.
  destruct (route_writes ep req w) as [[Hsu [Hsp [Hqu Hqp]]] | [o [_ Hins]]].
  - split; [|split].
    + destruct Hf as [Hfu Hfp]. split.
      * intros u Hu. rewrite Hsu in Hu. specialize (Hfu u Hu). lia.
      * intros p Hp. rewrite Hsp in Hp. specialize (Hfp p Hp). lia.
    + intros p Hp. rewrite Hsp in Hp. rewrite Hsu. now apply Hr.
    + now rewrite Hsu.
  - split.
    + eapply insert_keeps_fresh_keys; eauto.
    + eapply insert_keeps_constraints; eauto.
Qed.

(** X6. The session changes hands only at [login], for a user whose stored
    hash the check accepts for the submitted password, and at [logout];
    every other request leaves it as it was. *)
Theorem session_changes_only_by_login_logout :
  forall (ep : Endpoint) (req : Request) (w : World),
    session_user (after gen chk int_in wd ep req w) = session_user w
    \/ (ep = Login
        /\ exists e pw u,
             form_lookup "email" (form req) = Some e
             /\ form_lookup "password" (form req) = Some pw
             /\ user_by_email e (db w) = Some u
             /\ chk (password u) pw = true
             /\ session_user (after gen chk int_in wd ep req w) = Some (user_id u))
    \/ (ep = Logout
        /\ authenticated w <> None
        /\ session_user (after gen chk int_in wd ep req w) = None).
Proof.
  intros ep req w. destruct ep; open_route; crack;
    try solve [left; reflexivity].
  all: unfold check_password in *.
  all: try solve [right; left; split; [reflexivity|];
                  do 3 eexists; repeat split; eauto].
  all: right; right; split; [reflexivity|]; split; [|reflexivity].
  all: erewrite authenticated_intro by eauto; discriminate.
Qed.

(** X7. Flashed messages are only added, at most one per request. *)
Theorem flashes_only_appended :
  forall (ep : Endpoint) (req : Request) (w : World),
    flashes (after gen chk int_in wd ep req w) = flashes w
    \/ exists message category,
         flashes (after gen chk int_in wd ep req w) = flashes w ++ [(message, category)].
Proof.
  intros ep req w. destruct ep; open_route; crack;
    try solve [left; reflexivity]; right; eauto.
Qed.

(** X8. Every redirect a view function answers with names an endpoint of
    the application whose rule takes [GET]: [url_for] resolves, and the
    request that follows the redirect is not refused for its method. *)
Theorem redirects_resolve :
  forall (ep : Endpoint) (req : Request) (w : World) (n : string),
    respond gen chk int_in wd ep req w = Return (Redirect n) ->
    redirect_target_ok n = true.
Proof.
  intros ep req w n. destruct ep; open_route; crack;
    intro H; try discriminate H; injection H as <-; reflexivity.
Qed.

Lemma anonymous_refused :
  forall (ep : Endpoint) (req : Request) (w : World),
    login_protected ep = true ->
    authenticated w = None ->
    serve (view_function gen chk int_in wd ep) req w
    = (Return (Redirect "login"),
       mkWorld (db w) [] (session_user w)
               (flashes w ++ [(login_message, "message")])
               (match session_user w with Some uid => [QUserGet uid] | None => [] end)).
Proof.
  intros ep req w Hp Ha. unfold authenticated in Ha.
  destruct ep; try discriminate Hp; open_route;
    destruct (session_user w) as [uid|] eqn:Hs; tidy; try rewrite Ha; reflexivity.
Qed.

(** X9. Every route behind [@login_required] answers a request without a
    user with the redirect to the login page and the login message, and
    does nothing else: no write, no change of session, no read of the
    form, of project rows or of the client list. *)
Theorem anonymous_refused_everywhere :
  forall (ep : Endpoint) (req : Request) (w : World),
    login_protected ep = true ->
    authenticated w = None ->
    respond gen chk int_in wd ep req w = Return (Redirect "login")
    /\ db (after gen chk int_in wd ep req w) = db w
    /\ session_user (after gen chk int_in wd ep req w) = session_user w
    /\ flashes (after gen chk int_in wd ep req w)
       = flashes w ++ [(login_message, "message")]
    /\ no_data_query (trace (after gen chk int_in wd ep req w)) = true.
Proof.
  intros ep req w Hp Ha. unfold respond, after.
  rewrite (@anonymous_refused ep req w Hp Ha). cbn.
  destruct (session_user w); auto.
Qed.

(** X10. A successful [login] redirects by role: to the admin dashboard for
    'admin', to the client dashboard for every other role; the session
    names the user, and nothing is flashed or written. *)
Theorem login_success_by_role :
  forall (w : World) (req : Request) (e pw : string) (u : User),
    method req = POST ->
    form_lookup "email" (form req) = Some e ->
    form_lookup "password" (form req) = Some pw ->
    user_by_email e (db w) = Some u ->
    chk (password u) pw = true ->
    respond gen chk int_in wd Login req w
      = Return (Redirect (if String.eqb (role u) "admin"
                          then "admin_dashboard" else "client_dashboard"))
    /\ session_user (after gen chk int_in wd Login req w) = Some (user_id u)
    /\ flashes (after gen chk int_in wd Login req w) = flashes w
    /\ db (after gen chk int_in wd Login req w) = db w.
Proof.
  intros w req e pw u Hm He Hp Hu Hc. open_route. use_eqs.
  unfold check_password. rewrite Hc. tidy.
  destruct (String.eqb (role u) "admin"); tidy; auto.
Qed.

(** X11. Following the redirect of a successful login, for a user the store
    finds under its id: an administrator gets the admin page, with the
    clients and with all the projects in descending order of start date;
    a client gets the dashboard with its own projects; and a user with
    any other role is sent on to the index page with 'Acceso no
    autorizado.'. *)
Theorem login_redirect_lands :
  forall (w : World) (req next : Request) (e pw : string) (u : User),
    method req = POST ->
    form_lookup "email" (form req) = Some e ->
    form_lookup "password" (form req) = Some pw ->
    user_by_email e (db w) = Some u ->
    chk (password u) pw = true ->
    user_get (user_id u) (db w) = Some u ->
    let w1 := after gen chk int_in wd Login req w in
    (role u = "admin" ->
       respond gen chk int_in wd Login req w = Return (Redirect "admin_dashboard")
       /\ exists all_projects,
            respond gen chk int_in wd AdminDashboard next w1
            = Return (RenderTemplate "admin.html"
                        (AdminContext (users_by_role "client" (db w)) all_projects))
            /\ Permutation all_projects (projects (db w))
            /\ StronglySorted desc_order all_projects)
    /\ (role u = "client" ->
       respond gen chk int_in wd Login req w = Return (Redirect "client_dashboard")
       /\ respond gen chk int_in wd ClientDashboard next w1
          = Return (RenderTemplate "dashboard.html"
                      (DashboardContext (name u)
                                        (projects_by_client (user_id u) (db w)))))
    /\ (role u <> "admin" -> role u <> "client" ->
       respond gen chk int_in wd Login req w = Return (Redirect "client_dashboard")
       /\ respond gen chk int_in wd ClientDashboard next w1 = Return (Redirect "index")
       /\ flashes (after gen chk int_in wd ClientDashboard next w1)
          = flashes w ++ [("Acceso no autorizado.", "error")]).
Proof.
  intros w req next e pw u Hm He Hp Hu Hc Hg w1. subst w1.
  split; [|split].
  - intro Hr. split.
    + open_route. unfold check_password. go. reflexivity.
    + exists (projects_by_start_date_desc (db w)).
      split; [|split; [apply order_by_perm | apply order_by_sorted]].
      open_route. unfold check_password. go. reflexivity.
  - intro Hr. open_route. unfold check_password.
    go. auto.
  - intros Ha Hcl. apply String.eqb_neq in Ha. apply String.eqb_neq in Hcl.
    open_route. unfold check_password.
    go. auto.
Qed.

(** X12. [logout] under a session answers with the redirect to the index
    page and drops the session, whatever the role; from then on every
    route behind [@login_required] sends to the login page. *)
Theorem logout_ends_session :
  forall (w : World) (req : Request) (u : User),
    authenticated w = Some u ->
    respond gen chk int_in wd Logout req w = Return (Redirect "index")
    /\ session_user (after gen chk int_in wd Logout req w) = None
    /\ db (after gen chk int_in wd Logout req w) = db w
    /\ flashes (after gen chk int_in wd Logout req w) = flashes w
    /\ forall (ep : Endpoint) (next : Request),
         login_protected ep = true ->
         respond gen chk int_in wd ep next (after gen chk int_in wd Logout req w)
         = Return (Redirect "login").
Proof.
  intros w req u Hau. apply authenticated_inv in Hau. destruct Hau as [Hs Hg].
  assert (E : serve (view_function gen chk int_in wd Logout) req w
              = (Return (Redirect "index"),
                 mkWorld (db w) [] None (flashes w) [QUserGet (user_id u)])).
  { open_route. use_eqs. reflexivity. }
  unfold respond, after. rewrite E. cbn [fst snd db session_user flashes].
  repeat split.
  intros ep next Hp. now rewrite anonymous_refused.
Qed.

Ltac as_admin H :=
  let u := fresh "cu" in
  let Hau := fresh "Hau" in
  let Hr := fresh "Hrole" in
  let Hs := fresh "Hs" in
  let Hg := fresh "Hg" in
  destruct H as [u [Hau Hr]];
  apply authenticated_inv in Hau; destruct Hau as [Hs Hg].

(** X13. A posted form that lacks a field the view function reads ends the
    request in [BadRequestKeyError] for the first such field, in the
    order the code reads them (on the admin-only routes: once the role
    check has passed); nothing is written, flashed or changed in the
    session. *)
Theorem missing_field_is_bad_request :
  forall (ep : Endpoint) (req : Request) (w : World) (k : string),
    method req = POST ->
    (login_protected ep = true -> admin_session w) ->
    first_missing (form_keys ep) (form req) = Some k ->
    respond gen chk int_in wd ep req w = Raise (BadRequestKeyError k)
    /\ db (after gen chk int_in wd ep req w) = db w
    /\ session_user (after gen chk int_in wd ep req w) = session_user w
    /\ flashes (after gen chk int_in wd ep req w) = flashes w.
Proof.
  intros ep req w k Hm Hadm Hmiss.
  destruct ep; cbn in Hmiss; try discriminate Hmiss.
  - revert Hmiss. open_route. rewrite Hm. crack;
      intro H; try discriminate H; injection H as <-; auto.
  - revert Hmiss. open_route. rewrite Hm. crack;
      intro H; try discriminate H; injection H as <-; auto.
  - as_admin (Hadm eq_refl). revert Hmiss. open_route. go. crack;
      intro H; try discriminate H; injection H as <-; auto.
  - as_admin (Hadm eq_refl). revert Hmiss. open_route. go. crack;
      intro H; try discriminate H; injection H as <-; auto.
Qed.

(** X14. [create_client] under an admin session, with an email no user has
    and values the store accepts: one user is added, with role 'client',
    the name made of first and last name with a space between, the
    company of the form and the hash of the password; the answer is the
    redirect to the admin dashboard with the success message. *)
Theorem create_client_adds_client :
  forall (w : World) (req : Request) (nombre apellido e pw emp : string),
    admin_session w ->
    form_lookup "nombre" (form req) = Some nombre ->
    form_lookup "apellido" (form req) = Some apellido ->
    form_lookup "email" (form req) = Some e ->
    form_lookup "password" (form req) = Some pw ->
    form_lookup "empresa" (form req) = Some emp ->
    (char_length e <= 100)%nat ->
    (char_length (nombre ++ " " ++ apellido)%string <= 100)%nat ->
    (char_length (gen (salt req) pw) <= 256)%nat ->
    (char_length emp <= 100)%nat ->
    (forall u, In u (users (db w)) -> email u <> e) ->
    fresh_keys (db w) ->
    respond gen chk int_in wd CreateClient req w = Return (Redirect "admin_dashboard")
    /\ users (db (after gen chk int_in wd CreateClient req w))
       = users (db w)
         ++ [mkUser (users_seq (db w)) e (gen (salt req) pw)
                    (nombre ++ " " ++ apellido)%string "client" (Some emp)]
    /\ projects (db (after gen chk int_in wd CreateClient req w)) = projects (db w)
    /\ flashes (after gen chk int_in wd CreateClient req w)
       = flashes w ++ [("¡Cliente creado exitosamente!", "success")].
Proof.
  intros w req nombre apellido e pw emp Hadm Hn Ha He Hp Hemp Le Ln Lh Lemp
         Hfree Hfresh.
  as_admin Hadm.
  assert (Hnone : user_by_email e (db w) = None) by now apply user_by_email_None.
  open_route. go.
  rewrite (@insert_user_accepts e (gen (salt req) pw)
             (nombre ++ " " ++ apellido)%string "client" (Some emp) (db w));
    try assumption; [| cbn; lia | cbn; now apply fits_le].
  tidy. auto.
Qed.

(** X15. [create_client] with an email a user already has: the message 'Ese
    correo electrónico ya está registrado.', the redirect to the admin
    dashboard, and the database as before. *)
Theorem create_client_duplicate_email :
  forall (w : World) (req : Request) (nombre apellido e pw emp : string) (u : User),
    admin_session w ->
    form_lookup "nombre" (form req) = Some nombre ->
    form_lookup "apellido" (form req) = Some apellido ->
    form_lookup "email" (form req) = Some e ->
    form_lookup "password" (form req) = Some pw ->
    form_lookup "empresa" (form req) = Some emp ->
    In u (users (db w)) ->
    email u = e ->
    respond gen chk int_in wd CreateClient req w = Return (Redirect "admin_dashboard")
    /\ db (after gen chk int_in wd CreateClient req w) = db w
    /\ flashes (after gen chk int_in wd CreateClient req w)
       = flashes w ++ [("Ese correo electrónico ya está registrado.", "error")].
Proof.
  intros w req nombre apellido e pw emp u Hadm Hn Ha He Hp Hemp Hin Hu.
  as_admin Hadm.
  destruct (user_by_email_found (db w) u Hin Hu) as [u' Hfound].
  open_route. go. auto.
Qed.

(** X16. [create_project] does not look the client up; the store does.  With
    a valid date and a [client_id] that is no integer the request ends in
    [DataError]; with one that is the id of no user it ends in
    [IntegrityError], the foreign key refusing the row.  Either way no
    project is stored, the rows of both tables are as before and nothing
    is flashed. *)
Theorem create_project_unknown_client :
  forall (w : World) (req : Request) (pn st sd cid : string) (d : date),
    admin_session w ->
    form_lookup "project_name" (form req) = Some pn ->
    form_lookup "status" (form req) = Some st ->
    form_lookup "start_date" (form req) = Some sd ->
    form_lookup "client_id" (form req) = Some cid ->
    strptime_Ymd wd sd = Some d ->
    (char_length pn <= 200)%nat ->
    (char_length st <= 50)%nat ->
    (int_in cid = None ->
       respond gen chk int_in wd CreateProject req w = Raise DataError
       /\ users (db (after gen chk int_in wd CreateProject req w)) = users (db w)
       /\ projects (db (after gen chk int_in wd CreateProject req w))
          = projects (db w)
       /\ flashes (after gen chk int_in wd CreateProject req w) = flashes w)
    /\ (forall c, int_in cid = Some c ->
          (forall u, In u (users (db w)) -> user_id u <> c) ->
          respond gen chk int_in wd CreateProject req w = Raise IntegrityError
          /\ users (db (after gen chk int_in wd CreateProject req w)) = users (db w)
          /\ projects (db (after gen chk int_in wd CreateProject req w))
             = projects (db w)
          /\ flashes (after gen chk int_in wd CreateProject req w) = flashes w).
Proof.
  intros w req pn st sd cid d Hadm Hpn Hst Hsd Hcid Hd Lpn Lst.
  as_admin Hadm. split.
  - intro Hnone. open_route. go.
    unfold insert_project. rewrite Hnone. tidy. auto.
  - intros c Hc Hno. open_route. go.
    unfold insert_project. rewrite Hc, (fits_le _ Lpn), (fits_le _ Lst). cbn [negb andb].
    replace (existsb (fun u => user_id u =? c) (users (db w))) with false.
    + rewrite orb_true_r. tidy. auto.
    + symmetry. apply not_true_is_false. intro H.
      apply existsb_exists in H. destruct H as [u [Hin Heq]].
      apply Z.eqb_eq in Heq. exact (Hno u Hin Heq).
Qed.

Lemma find_app_old :
  forall (A : Type) (f : A -> bool) (l : list A) (x : A),
    f x = false -> find f (l ++ [x]) = find f l.
Proof.
  intros A f l x Hx. induction l as [|a l IH]; cbn.
  - now rewrite Hx.
  - destruct (f a); [reflexivity|exact IH].
Qed.

(** X17. The seeding runs once: after a start-up that did not fail a user has
    the admin email, and another start-up, whatever salt it draws,
    leaves the database as it is. *)
Theorem seeding_runs_once :
  forall (w : World) (s1 s2 : string),
    fst (boot gen int_in s1 w) = Return tt ->
    (exists a, user_by_email "admin@consultoria.py" (db (snd (boot gen int_in s1 w)))
               = Some a)
    /\ db (snd (boot gen int_in s2 (snd (boot gen int_in s1 w))))
       = db (snd (boot gen int_in s1 w)).
Proof.
  intros w s1 s2. unfold boot, seed_admin. unfold_view. tidy.
  destruct (user_by_email "admin@consultoria.py" (db w)) as [a|] eqn:E; tidy.
  - intros _. rewrite E. tidy. eauto.
  - destruct (insert_user _ _ _ _ _ _) as [x|d] eqn:I; tidy; [discriminate|].
    intros _. apply insert_user_inr in I. destruct I as [Hu _].
    assert (F : user_by_email "admin@consultoria.py" d
                = Some (mkUser (users_seq (db w)) "admin@consultoria.py"
                               (gen s1 "admin123") "Administrador" "admin"
                               (Some "Consultoría PY"))).
    { unfold user_by_email. rewrite Hu. apply find_app_new; [|reflexivity].
      intros y Hy. apply String.eqb_neq.
      exact (proj1 (user_by_email_None _ _) E y Hy). }
    rewrite F. tidy. eauto.
Qed.

(** X18. On a database without the admin email, the start-up adds the
    administrator, and a login with the well-known email and password
    then lands in an admin session.  The hash library is taken to accept
    the password a hash was made from. *)
Theorem seeded_admin_can_log_in :
  forall (Hhash : forall s p, chk (gen s p) p = true)
         (w : World) (s : string) (lreq : Request),
    (forall u, In u (users (db w)) -> email u <> "admin@consultoria.py") ->
    fresh_keys (db w) ->
    (char_length (gen s "admin123") <= 256)%nat ->
    method lreq = POST ->
    form_lookup "email" (form lreq) = Some "admin@consultoria.py" ->
    form_lookup "password" (form lreq) = Some "admin123" ->
    let w1 := snd (boot gen int_in s w) in
    fst (boot gen int_in s w) = Return tt
    /\ users (db w1)
       = users (db w) ++ [mkUser (users_seq (db w)) "admin@consultoria.py"
                                 (gen s "admin123") "Administrador" "admin"
                                 (Some "Consultoría PY")]
    /\ respond gen chk int_in wd Login lreq w1 = Return (Redirect "admin_dashboard")
    /\ admin_session (after gen chk int_in wd Login lreq w1).
Proof.
  intros Hhash w s lreq Hfree Hfresh Lh Hm He Hp w1.
  assert (Hnone : user_by_email "admin@consultoria.py" (db w) = None)
    by now apply user_by_email_None.
  set (a := mkUser (users_seq (db w)) "admin@consultoria.py"
                   (gen s "admin123") "Administrador" "admin"
                   (Some "Consultoría PY")).
  set (d1 := mkDB (users (db w) ++ [a]) (projects (db w))
                  (users_seq (db w) + 1) (projects_seq (db w))).
  assert (B : boot gen int_in s w
              = (Return tt,
                 mkWorld d1 [] (session_user w) (flashes w)
                         [QUserByEmail "admin@consultoria.py"])).
  { unfold boot, seed_admin. unfold_view. tidy. rewrite Hnone. tidy.
    rewrite (@insert_user_accepts "admin@consultoria.py" (gen s "admin123")
               "Administrador" "admin" (Some "Consultoría PY") (db w));
      try assumption; try (cbn; lia); reflexivity. }
  assert (F : user_by_email "admin@consultoria.py" d1 = Some a).
  { unfold user_by_email. cbn [users d1]. apply find_app_new; [|reflexivity].
    intros y Hy. apply String.eqb_neq. now apply Hfree. }
  assert (G : user_get (users_seq (db w)) d1 = Some a).
  { unfold user_get. cbn [users d1]. apply find_app_new; [|apply Z.eqb_refl].
    intros y Hy. apply Z.eqb_neq. destruct Hfresh as [Hu _].
    specialize (Hu y Hy). lia. }
  subst w1. rewrite B. cbn [fst snd db].
  split; [reflexivity|]. split; [reflexivity|].
  assert (L : serve (view_function gen chk int_in wd Login) lreq
                (mkWorld d1 [] (session_user w) (flashes w)
                         [QUserByEmail "admin@consultoria.py"])
              = (Return (Redirect "admin_dashboard"),
                 mkWorld d1 [] (Some (users_seq (db w))) (flashes w)
                         [QUserByEmail "admin@consultoria.py"])).
  { open_route. rewrite Hm, He, Hp. cbn [db]. rewrite F.
    unfold check_password. cbn [password a]. rewrite Hhash. reflexivity. }
  unfold respond, after. rewrite L. cbn [fst snd].
  split; [reflexivity|]. exists a. split; [|reflexivity].
  unfold authenticated. cbn [session_user db]. exact G.
Qed.

(** X19. A project the administrator creates for a client shows on the
    dashboard of that client, after the projects it had, and on the
    dashboard of no other client. *)
Theorem created_project_reaches_its_owner :
  forall (w wc : World) (req next : Request) (pn st sd cid : string)
         (d : date) (c : Z) (u : User),
    admin_session w ->
    form_lookup "project_name" (form req) = Some pn ->
    form_lookup "status" (form req) = Some st ->
    form_lookup "start_date" (form req) = Some sd ->
    form_lookup "client_id" (form req) = Some cid ->
    strptime_Ymd wd sd = Some d ->
    int_in cid = Some c ->
    (char_length pn <= 200)%nat ->
    (char_length st <= 50)%nat ->
    (exists cl, In cl (users (db w)) /\ user_id cl = c) ->
    fresh_keys (db w) ->
    db wc = db (after gen chk int_in wd CreateProject req w) ->
    authenticated wc = Some u ->
    role u = "client" ->
    respond gen chk int_in wd ClientDashboard next wc
    = Return (RenderTemplate "dashboard.html"
        (DashboardContext (name u)
           (projects_by_client (user_id u) (db w)
            ++ (if user_id u =? c
                then [mkProject (projects_seq (db w)) pn st (Some d) c]
                else [])))).
Proof.
  intros w wc req next pn st sd cid d c u Hadm Hpn Hst Hsd Hcid Hd Hc Lpn Lst
         Hcl Hfresh Hdb Hau Hrole.
  as_admin Hadm.
  assert (E : db (after gen chk int_in wd CreateProject req w)
              = mkDB (users (db w))
                     (projects (db w) ++ [mkProject (projects_seq (db w)) pn st (Some d) c])
                     (users_seq (db w)) (projects_seq (db w) + 1)).
  { open_route. go.
    rewrite (@insert_project_accepts int_in pn st (Some d) cid c (db w)
               Hc Lpn Lst Hcl Hfresh). reflexivity. }
  rewrite E in Hdb. clear E.
  apply authenticated_inv in Hau. destruct Hau as [Hs' Hg'].
  open_route. rewrite Hs'. tidy. rewrite Hg'. tidy. rewrite Hrole. tidy.
  unfold projects_by_client. rewrite Hdb. cbn [projects].
  rewrite filter_app. cbn. rewrite (Z.eqb_sym c (user_id u)). reflexivity.
Qed.

Lemma login_reads_little :
  forall (lreq : Request) (w w' : World) (e : string),
    form_lookup "email" (form lreq) = Some e ->
    user_by_email e (db w) = user_by_email e (db w') ->
    session_user w = session_user w' ->
    respond gen chk int_in wd Login lreq w = respond gen chk int_in wd Login lreq w'
    /\ session_user (after gen chk int_in wd Login lreq w)
       = session_user (after gen chk int_in wd Login lreq w').
Proof.
  intros lreq w w' e He Hu Hs. open_route.
  destruct (method lreq); tidy; [auto|]. rewrite He. tidy.
  destruct (form_lookup "password" (form lreq)) as [pw|]; tidy; [|auto].
  rewrite Hu. destruct (user_by_email e (db w')) as [u|]; tidy; [|auto].
  destruct (check_password chk u pw); tidy; [|auto].
  destruct (String.eqb (role u) "admin"); tidy; auto.
Qed.

(** X20. A registration, accepted or not, leaves every other account as it
    was: a login under an email that is not the one on the registration
    form gets the same answer and the same session after it as before. *)
Theorem registration_leaves_other_accounts :
  forall (w : World) (req lreq : Request) (e' : string),
    form_lookup "email" (form lreq) = Some e' ->
    form_lookup "email" (form req) <> Some e' ->
    respond gen chk int_in wd Login lreq (after gen chk int_in wd Register req w)
      = respond gen chk int_in wd Login lreq w
    /\ session_user (after gen chk int_in wd Login lreq
                       (after gen chk int_in wd Register req w))
       = session_user (after gen chk int_in wd Login lreq w).
Proof.
  intros w req lreq e' He' Hother.
  apply login_reads_little with (e := e'); [assumption| |].
  - destruct (route_writes Register req w) as [[Hsu _] | [o [Hok Hins]]].
    + unfold user_by_email. now rewrite Hsu.
    + apply insert_accepted_rows in Hins.
      destruct o as [e pw n r emp | n st sd cid]; cbn in Hok.
      * destruct Hins as [h [_ [Hu _]]]. unfold user_by_email.
        rewrite Hu. apply find_app_old. cbn. apply String.eqb_neq.
        intros ->. apply Hother. tauto.
      * destruct Hok as [Hep _]. discriminate Hep.
  - open_route. crack; reflexivity.
Qed.

Lemma find_app_found :
  forall (A : Type) (f : A -> bool) (l l' : list A) (x : A),
    find f l = Some x -> find f (l ++ l') = Some x.
Proof.
  intros A f l l' x. induction l as [|a l IH]; cbn; [discriminate|].
  destruct (f a); auto.
Qed.

Lemma create_project_accepted :
  forall (w : World) (req : Request) (cu : User) (pn st sd cid : string)
         (d : date) (c : Z),
    session_user w = Some (user_id cu) ->
    user_get (user_id cu) (db w) = Some cu ->
    role cu = "admin" ->
    form_lookup "project_name" (form req) = Some pn ->
    form_lookup "status" (form req) = Some st ->
    form_lookup "start_date" (form req) = Some sd ->
    form_lookup "client_id" (form req) = Some cid ->
    strptime_Ymd wd sd = Some d ->
    int_in cid = Some c ->
    (char_length pn <= 200)%nat ->
    (char_length st <= 50)%nat ->
    (exists cl, In cl (users (db w)) /\ user_id cl = c) ->
    fresh_keys (db w) ->
    serve (view_function gen chk int_in wd CreateProject) req w
    = (Return (Redirect "admin_dashboard"),
       mkWorld (mkDB (users (db w))
                     (projects (db w)
                      ++ [mkProject (projects_seq (db w)) pn st (Some d) c])
                     (users_seq (db w)) (projects_seq (db w) + 1))
               [] (session_user w)
               (flashes w ++ [("¡Proyecto creado y asignado exitosamente!", "success")])
               [QUserGet (user_id cu)]).
Proof.
  intros w req cu pn st sd cid d c Hs Hg Hrole Hpn Hst Hsd Hcid Hd Hc Lpn Lst
         Hcl Hfresh.
  open_route. go.
  rewrite (@insert_project_accepts int_in pn st (Some d) cid c (db w)
             Hc Lpn Lst Hcl Hfresh).
  tidy. reflexivity.
Qed.

(** X21. [create_project] has no key to recognise a project by: the same form
    sent twice stores two projects that differ in their id only. *)
Theorem create_project_twice_duplicates :
  forall (w : World) (req : Request) (pn st sd cid : string) (d : date) (c : Z),
    admin_session w ->
    form_lookup "project_name" (form req) = Some pn ->
    form_lookup "status" (form req) = Some st ->
    form_lookup "start_date" (form req) = Some sd ->
    form_lookup "client_id" (form req) = Some cid ->
    strptime_Ymd wd sd = Some d ->
    int_in cid = Some c ->
    (char_length pn <= 200)%nat ->
    (char_length st <= 50)%nat ->
    (exists cl, In cl (users (db w)) /\ user_id cl = c) ->
    fresh_keys (db w) ->
    let w1 := after gen chk int_in wd CreateProject req w in
    respond gen chk int_in wd CreateProject req w1 = Return (Redirect "admin_dashboard")
    /\ projects (db (after gen chk int_in wd CreateProject req w1))
       = projects (db w)
         ++ [mkProject (projects_seq (db w)) pn st (Some d) c;
             mkProject (projects_seq (db w) + 1) pn st (Some d) c].
Proof.
  intros w req pn st sd cid d c Hadm Hpn Hst Hsd Hcid Hd Hc Lpn Lst Hcl Hfresh w1.
  as_admin Hadm. subst w1. unfold respond, after.
  rewrite (@create_project_accepted w req cu pn st sd cid d c Hs Hg Hrole Hpn Hst
             Hsd Hcid Hd Hc Lpn Lst Hcl Hfresh).
  cbn [snd].
  erewrite create_project_accepted with (cu := cu) (c := c) (d := d); eauto.
  - cbn. rewrite <- app_assoc. auto.
  - destruct Hfresh as [Hu Hp]. split; cbn; [exact Hu|].
    intros p Hin. apply in_app_iff in Hin.
    destruct Hin as [Hin|[<-|[]]]; [specialize (Hp p Hin)|cbn]; lia.
Qed.

(** X22. [create_client] is refused the second time: after a client was
    created, the same form again gets the message 'Ese correo electrónico
    ya está registrado.' and adds nothing. *)
Theorem create_client_twice_refused :
  forall (w : World) (req : Request) (nombre apellido e pw emp : string),
    admin_session w ->
    form_lookup "nombre" (form req) = Some nombre ->
    form_lookup "apellido" (form req) = Some apellido ->
    form_lookup "email" (form req) = Some e ->
    form_lookup "password" (form req) = Some pw ->
    form_lookup "empresa" (form req) = Some emp ->
    (char_length e <= 100)%nat ->
    (char_length (nombre ++ " " ++ apellido)%string <= 100)%nat ->
    (char_length (gen (salt req) pw) <= 256)%nat ->
    (char_length emp <= 100)%nat ->
    (forall u, In u (users (db w)) -> email u <> e) ->
    fresh_keys (db w) ->
    let w1 := after gen chk int_in wd CreateClient req w in
    users (db w1)
    = users (db w)
      ++ [mkUser (users_seq (db w)) e (gen (salt req) pw)
                 (nombre ++ " " ++ apellido)%string "client" (Some emp)]
    /\ respond gen chk int_in wd CreateClient req w1 = Return (Redirect "admin_dashboard")
    /\ db (after gen chk int_in wd CreateClient req w1) = db w1
    /\ flashes (after gen chk int_in wd CreateClient req w1)
       = flashes w1 ++ [("Ese correo electrónico ya está registrado.", "error")].
Proof.
  intros w req nombre apellido e pw emp Hadm Hn Ha He Hp Hemp Le Ln Lh Lemp
         Hfree Hfresh w1.
  as_admin Hadm.
  assert (Hnone : user_by_email e (db w) = None) by now apply user_by_email_None.
  set (nu := mkUser (users_seq (db w)) e (gen (salt req) pw)
                    (nombre ++ " " ++ apellido)%string "client" (Some emp)).
  set (d1 := mkDB (users (db w) ++ [nu]) (projects (db w))
                  (users_seq (db w) + 1) (projects_seq (db w))).
  assert (E : serve (view_function gen chk int_in wd CreateClient) req w
              = (Return (Redirect "admin_dashboard"),
                 mkWorld d1 [] (session_user w)
                         (flashes w ++ [("¡Cliente creado exitosamente!", "success")])
                         [QUserGet (user_id cu); QUserByEmail e])).
  { open_route. go.
    rewrite (@insert_user_accepts e (gen (salt req) pw)
               (nombre ++ " " ++ apellido)%string "client" (Some emp) (db w));
      try assumption; [| cbn; lia | cbn; now apply fits_le].
    tidy. reflexivity. }
  assert (F : user_by_email e d1 = Some nu).
  { unfold user_by_email. cbn [users d1]. apply find_app_new.
    - intros y Hy. apply String.eqb_neq. now apply Hfree.
    - cbn. apply String.eqb_refl. }
  assert (G : user_get (user_id cu) d1 = Some cu).
  { unfold user_get. cbn [users d1]. now apply find_app_found. }
  subst w1. unfold respond, after. rewrite E. cbn [snd db].
  split; [reflexivity|].
  open_route. cbn [session_user db]. rewrite Hs. tidy. rewrite G. tidy.
  rewrite Hrole. tidy. rewrite Hn, Ha, He, Hp, Hemp. tidy. rewrite F. tidy. auto.
Qed.

End RouteProperties.

(** ** The routes on the sample database *)

Lemma sample_admin_session : admin_session (world_of sample_db (Some 1)).
Proof. exists sample_admin. split; reflexivity. Qed.

Lemma sample_db_references : references_hold sample_db.
Proof.
  intros p Hp. cbn in Hp.
  destruct Hp as [<-|[<-|[<-|[<-|[]]]]]; cbn.
  1,3: exists sample_client; cbn; auto.
  all: exists sample_client_3; cbn; auto.
Qed.

Lemma sample_db_emails : NoDup (map email (users sample_db)).
Proof.
  cbn. repeat (constructor; [cbn; intuition discriminate|]). constructor.
Qed.

Lemma sample_db_no_user_99 :
  forall u, In u (users sample_db) -> user_id u <> 99.
Proof.
  cbn. intros u Hu.
  repeat (destruct Hu as [<-|Hu]; [cbn; lia|]). contradiction.
Qed.

Lemma sample_client_exists :
  exists cl, In cl (users (db (world_of sample_db (Some 1)))) /\ user_id cl = 2.
Proof. exists sample_client. cbn. auto. Qed.

Lemma every_route_keeps_constraints_witness :
  let d := db (after tag_generate_password_hash tag_check_password_hash decimal_in two_scripts
                 CreateProject (post (project_form "2"))
                 (world_of sample_db (Some 1))) in
  fresh_keys d /\ references_hold d /\ NoDup (map email (users d)).
Proof.
  exact (@every_route_keeps_constraints tag_generate_password_hash
           tag_check_password_hash decimal_in two_scripts CreateProject
           (post (project_form "2")) (world_of sample_db (Some 1))
           sample_db_fresh sample_db_references sample_db_emails).
Defined.

Lemma redirects_resolve_witness : redirect_target_ok "client_dashboard" = true.
Proof.
  exact (@redirects_resolve tag_generate_password_hash tag_check_password_hash
           decimal_in two_scripts Login (post [("email", "c@x.com"); ("password", "pw1")])
           (world_of sample_db None) "client_dashboard" eq_refl).
Defined.

Lemma anonymous_refused_everywhere_witness :
  respond tag_generate_password_hash tag_check_password_hash decimal_in two_scripts
          CreateClient (post client_form) (world_of sample_db None)
  = Return (Redirect "login")
  /\ db (after tag_generate_password_hash tag_check_password_hash decimal_in two_scripts
               CreateClient (post client_form) (world_of sample_db None))
     = sample_db.
Proof.
  destruct (@anonymous_refused_everywhere tag_generate_password_hash
              tag_check_password_hash decimal_in two_scripts CreateClient (post client_form)
              (world_of sample_db None) eq_refl eq_refl) as [H1 [H2 _]].
  split; [exact H1 | exact H2].
Defined.

Lemma login_success_by_role_witness :
  respond tag_generate_password_hash tag_check_password_hash decimal_in two_scripts Login
          (post [("email", "admin@consultoria.py"); ("password", "admin123")])
          (world_of sample_db None)
  = Return (Redirect "admin_dashboard").
Proof.
  exact (proj1 (@login_success_by_role tag_generate_password_hash
                  tag_check_password_hash decimal_in two_scripts (world_of sample_db None)
                  (post [("email", "admin@consultoria.py"); ("password", "admin123")])
                  "admin@consultoria.py" "admin123" sample_admin
                  eq_refl eq_refl eq_refl eq_refl eq_refl)).
Defined.

Lemma login_redirect_lands_witness :
  respond tag_generate_password_hash tag_check_password_hash decimal_in two_scripts
          ClientDashboard get
          (after tag_generate_password_hash tag_check_password_hash decimal_in two_scripts Login
                 (post [("email", "c@x.com"); ("password", "pw1")])
                 (world_of sample_db None))
  = Return (RenderTemplate "dashboard.html"
      (DashboardContext "Ana Gil"
         [ mkProject 1 "Website Redesign" "Pendiente" (Some (mkDate 2024 1 1)) 2;
           mkProject 3 "Migration" "Completado" (Some (mkDate 2024 6 30)) 2 ])).
Proof.
  exact (proj2 (proj1 (proj2
           (@login_redirect_lands tag_generate_password_hash
              tag_check_password_hash decimal_in two_scripts (world_of sample_db None)
              (post [("email", "c@x.com"); ("password", "pw1")]) get
              "c@x.com" "pw1" sample_client
              eq_refl eq_refl eq_refl eq_refl eq_refl eq_refl)) eq_refl)).
Defined.

Lemma logout_ends_session_witness :
  session_user (after tag_generate_password_hash tag_check_password_hash decimal_in two_scripts
                      Logout get (world_of sample_db (Some 2))) = None
  /\ respond tag_generate_password_hash tag_check_password_hash decimal_in two_scripts
             ClientDashboard get
             (after tag_generate_password_hash tag_check_password_hash decimal_in two_scripts
                    Logout get (world_of sample_db (Some 2)))
     = Return (Redirect "login").
Proof.
  destruct (@logout_ends_session tag_generate_password_hash
              tag_check_password_hash decimal_in two_scripts (world_of sample_db (Some 2)) get
              sample_client eq_refl) as [_ [H2 [_ [_ H5]]]].
  split; [exact H2 | exact (H5 ClientDashboard get eq_refl)].
Defined.

Lemma missing_field_is_bad_request_witness :
  respond tag_generate_password_hash tag_check_password_hash decimal_in two_scripts Register
          (post [("email", "n@x.com"); ("password", "pw9")]) (world_of sample_db None)
  = Raise (BadRequestKeyError "name").
Proof.
  refine (proj1 (@missing_field_is_bad_request tag_generate_password_hash
                   tag_check_password_hash decimal_in two_scripts Register
                   (post [("email", "n@x.com"); ("password", "pw9")])
                   (world_of sample_db None) "name" eq_refl _ eq_refl)).
  intro H. discriminate H.
Defined.

Lemma create_client_adds_client_witness :
  users (db (after tag_generate_password_hash tag_check_password_hash decimal_in two_scripts
                   CreateClient (post client_form) (world_of sample_db (Some 1))))
  = users sample_db
    ++ [mkUser 5 "n@x.com" "tag$pw9" "Nora Rey" "client" (Some "N")].
Proof.
  refine (proj1 (proj2
    (@create_client_adds_client tag_generate_password_hash
       tag_check_password_hash decimal_in two_scripts (world_of sample_db (Some 1))
       (post client_form) "Nora" "Rey" "n@x.com" "pw9" "N"
       sample_admin_session eq_refl eq_refl eq_refl eq_refl eq_refl
       _ _ _ _ sample_db_email_unused sample_db_fresh))); cbn; lia.
Defined.

Lemma create_client_duplicate_email_witness :
  db (after tag_generate_password_hash tag_check_password_hash decimal_in two_scripts
            CreateClient
            (post [("nombre", "Ana"); ("apellido", "Gil"); ("email", "c@x.com");
                   ("password", "pw0"); ("empresa", "X")])
            (world_of sample_db (Some 1)))
  = sample_db.
Proof.
  exact (proj1 (proj2
    (@create_client_duplicate_email tag_generate_password_hash
       tag_check_password_hash decimal_in two_scripts (world_of sample_db (Some 1))
       (post [("nombre", "Ana"); ("apellido", "Gil"); ("email", "c@x.com");
              ("password", "pw0"); ("empresa", "X")])
       "Ana" "Gil" "c@x.com" "pw0" "X" sample_client
       sample_admin_session eq_refl eq_refl eq_refl eq_refl eq_refl
       (or_intror (or_introl eq_refl)) eq_refl))).
Defined.

Lemma create_project_unknown_client_witness :
  respond tag_generate_password_hash tag_check_password_hash decimal_in two_scripts
          CreateProject (post (project_form "99")) (world_of sample_db (Some 1))
  = Raise IntegrityError
  /\ respond tag_generate_password_hash tag_check_password_hash decimal_in two_scripts
             CreateProject (post (project_form "two")) (world_of sample_db (Some 1))
     = Raise DataError.
Proof.
  assert (L1 : (char_length "Website Redesign" <= 200)%nat) by (cbn; lia).
  assert (L2 : (char_length "Pendiente" <= 50)%nat) by (cbn; lia).
  split.
  - exact (proj1 (proj2
      (@create_project_unknown_client tag_generate_password_hash
         tag_check_password_hash decimal_in two_scripts (world_of sample_db (Some 1))
         (post (project_form "99")) "Website Redesign" "Pendiente" "2024-01-01"
         "99" (mkDate 2024 1 1)
         sample_admin_session eq_refl eq_refl eq_refl eq_refl eq_refl L1 L2)
      99 eq_refl sample_db_no_user_99)).
  - exact (proj1 (proj1
      (@create_project_unknown_client tag_generate_password_hash
         tag_check_password_hash decimal_in two_scripts (world_of sample_db (Some 1))
         (post (project_form "two")) "Website Redesign" "Pendiente" "2024-01-01"
         "two" (mkDate 2024 1 1)
         sample_admin_session eq_refl eq_refl eq_refl eq_refl eq_refl L1 L2)
      eq_refl)).
Defined.

Lemma seeding_runs_once_witness :
  db (snd (boot tag_generate_password_hash decimal_in "salt2"
             (snd (boot tag_generate_password_hash decimal_in "salt1"
                     (world_of (mkDB [] [] 1 1) None)))))
  = db (snd (boot tag_generate_password_hash decimal_in "salt1"
               (world_of (mkDB [] [] 1 1) None))).
Proof.
  exact (proj2 (@seeding_runs_once tag_generate_password_hash decimal_in
                  (world_of (mkDB [] [] 1 1) None) "salt1" "salt2" eq_refl)).
Defined.

Lemma seeded_admin_can_log_in_witness :
  respond tag_generate_password_hash tag_check_password_hash decimal_in two_scripts Login
          (post [("email", "admin@consultoria.py"); ("password", "admin123")])
          (snd (boot tag_generate_password_hash decimal_in "salt1"
                  (world_of (mkDB [] [] 1 1) None)))
  = Return (Redirect "admin_dashboard").
Proof.
  assert (L : (char_length (tag_generate_password_hash "salt1" "admin123") <= 256)%nat)
    by (cbn; lia).
  assert (F : forall u, In u (users (db (world_of (mkDB [] [] 1 1) None))) ->
                        email u <> "admin@consultoria.py")
    by (intros u []).
  exact (proj1 (proj2 (proj2
    (@seeded_admin_can_log_in tag_generate_password_hash tag_check_password_hash
       decimal_in two_scripts tag_hash_accepts (world_of (mkDB [] [] 1 1) None) "salt1"
       (post [("email", "admin@consultoria.py"); ("password", "admin123")])
       F empty_db_fresh L eq_refl eq_refl eq_refl)))).
Defined.

Lemma created_project_reaches_its_owner_witness :
  respond tag_generate_password_hash tag_check_password_hash decimal_in two_scripts
          ClientDashboard get
          (world_of (db (after tag_generate_password_hash tag_check_password_hash
                               decimal_in two_scripts CreateProject (post (project_form "3"))
                               (world_of sample_db (Some 1))))
                    (Some 3))
  = Return (RenderTemplate "dashboard.html"
      (DashboardContext "Luis Paz"
         [ mkProject 2 "Audit" "En Progreso" None 3;
           mkProject 4 "Training" "Pendiente" (Some (mkDate 2023 11 5)) 3;
           mkProject 5 "Website Redesign" "Pendiente" (Some (mkDate 2024 1 1)) 3 ])).
Proof.
  assert (L1 : (char_length "Website Redesign" <= 200)%nat) by (cbn; lia).
  assert (L2 : (char_length "Pendiente" <= 50)%nat) by (cbn; lia).
  assert (C : exists cl, In cl (users (db (world_of sample_db (Some 1))))
                         /\ user_id cl = 3).
  { exists sample_client_3. cbn. auto. }
  exact (@created_project_reaches_its_owner tag_generate_password_hash
           tag_check_password_hash decimal_in two_scripts (world_of sample_db (Some 1))
           (world_of (db (after tag_generate_password_hash tag_check_password_hash
                                decimal_in two_scripts CreateProject (post (project_form "3"))
                                (world_of sample_db (Some 1))))
                     (Some 3))
           (post (project_form "3")) get
           "Website Redesign" "Pendiente" "2024-01-01" "3" (mkDate 2024 1 1) 3
           sample_client_3
           sample_admin_session eq_refl eq_refl eq_refl eq_refl eq_refl eq_refl
           L1 L2 C sample_db_fresh eq_refl eq_refl eq_refl).
Defined.

Lemma registration_leaves_other_accounts_witness :
  respond tag_generate_password_hash tag_check_password_hash decimal_in two_scripts Login
          (post [("email", "c@x.com"); ("password", "pw1")])
          (after tag_generate_password_hash tag_check_password_hash decimal_in two_scripts
                 Register
                 (post [("email", "n@x.com"); ("name", "Nora"); ("password", "pw9")])
                 (world_of sample_db None))
  = respond tag_generate_password_hash tag_check_password_hash decimal_in two_scripts Login
            (post [("email", "c@x.com"); ("password", "pw1")])
            (world_of sample_db None).
Proof.
  refine (proj1 (@registration_leaves_other_accounts tag_generate_password_hash
                   tag_check_password_hash decimal_in two_scripts (world_of sample_db None)
                   (post [("email", "n@x.com"); ("name", "Nora"); ("password", "pw9")])
                   (post [("email", "c@x.com"); ("password", "pw1")])
                   "c@x.com" eq_refl _)).
  intro H. discriminate H.
Defined.

Lemma create_project_twice_duplicates_witness :
  projects (db (after tag_generate_password_hash tag_check_password_hash decimal_in two_scripts
                      CreateProject (post (project_form "2"))
                      (after tag_generate_password_hash tag_check_password_hash
                             decimal_in two_scripts CreateProject (post (project_form "2"))
                             (world_of sample_db (Some 1)))))
  = projects sample_db
    ++ [ mkProject 5 "Website Redesign" "Pendiente" (Some (mkDate 2024 1 1)) 2;
         mkProject 6 "Website Redesign" "Pendiente" (Some (mkDate 2024 1 1)) 2 ].
Proof.
  assert (L1 : (char_length "Website Redesign" <= 200)%nat) by (cbn; lia).
  assert (L2 : (char_length "Pendiente" <= 50)%nat) by (cbn; lia).
  exact (proj2
    (@create_project_twice_duplicates tag_generate_password_hash
       tag_check_password_hash decimal_in two_scripts (world_of sample_db (Some 1))
       (post (project_form "2")) "Website Redesign" "Pendiente" "2024-01-01" "2"
       (mkDate 2024 1 1) 2
       sample_admin_session eq_refl eq_refl eq_refl eq_refl eq_refl eq_refl
       L1 L2 sample_client_exists sample_db_fresh)).
Defined.

Lemma create_client_twice_refused_witness :
  let w1 := after tag_generate_password_hash tag_check_password_hash decimal_in two_scripts
                  CreateClient (post client_form) (world_of sample_db (Some 1)) in
  db (after tag_generate_password_hash tag_check_password_hash decimal_in two_scripts
            CreateClient (post client_form) w1) = db w1.
Proof.
  refine (proj1 (proj2 (proj2
    (@create_client_twice_refused tag_generate_password_hash
       tag_check_password_hash decimal_in two_scripts (world_of sample_db (Some 1))
       (post client_form) "Nora" "Rey" "n@x.com" "pw9" "N"
       sample_admin_session eq_refl eq_refl eq_refl eq_refl eq_refl
       _ _ _ _ sample_db_email_unused sample_db_fresh)))); cbn; lia.
Defined.

(** ** The store and the date format on the inputs that tell them apart *)

(** A start date written with Arabic-Indic digits is a date for
    [strptime]: the project is stored, dated 2024-03-15. *)
Example create_project_wide_digits :
  let r := serve (create_project decimal_in two_scripts)
             (post [("project_name", "Website Redesign"); ("status", "Pendiente");
                    ("start_date", "٢٠٢٤-03-15"); ("client_id", "2")])
             (world_of sample_db (Some 1)) in
  fst r = Return (Redirect "admin_dashboard")
  /\ projects (db (snd r))
     = projects sample_db
       ++ [mkProject 5 "Website Redesign" "Pendiente" (Some (mkDate 2024 3 15)) 2].
Proof. split; reflexivity. Qed.

(** A project refused for its [client_id] leaves the rows as they were
    and the sequence of the table one further: the next project gets 6. *)
Example refused_insert_moves_sequence :
  let r := serve (create_project decimal_in two_scripts)
             (post (project_form "99")) (world_of sample_db (Some 1)) in
  fst r = Raise IntegrityError
  /\ projects (db (snd r)) = projects sample_db
  /\ users (db (snd r)) = users sample_db
  /\ projects_seq sample_db = 5
  /\ projects_seq (db (snd r)) = 6.
Proof. repeat split; reflexivity. Qed.

(** Three characters fit a column of three though they are six bytes. *)
Example fits_counts_characters :
  fits 3 "ñññ" = true /\ String.length "ñññ" = 6%nat.
Proof. split; reflexivity. Qed.
